(** * Snippetbox: the snippet DAO and its HTTP handlers

  A shallow embedding of
    - pkg/models/mysql/snippets.go   (SnippetModel: Insert, Get, Latest)
    - cmd/web/handlers.go            (showSnippet, createSnippet)
    - the two earlier revisions of the handlers file (createSnippet)
  together with the pieces of the Go standard library and of the storage
  engine these functions call into, followed by the properties of the
  specification stated over that embedding. *)

From Stdlib Require Import ZArith Lia Ascii String DecimalString DecimalPos.
From stdpp Require Import base option list gmap strings.

Open Scope Z_scope.

(* ===================================================================== *)
(** * Go integers *)
(* ===================================================================== *)

Module GoInt.

(** [strconv.IntSize]: the width of [int] on the 64-bit targets the
    server is built for. *)
Definition intSize : Z := 64.

Definition minInt : Z := - 2 ^ (intSize - 1).
Definition maxInt : Z := 2 ^ (intSize - 1) - 1.

Definition minInt64 : Z := - 2 ^ 63.
Definition maxInt64 : Z := 2 ^ 63 - 1.

(** Two's-complement wrap-around of [z] to a signed integer of [bits] bits. *)
Definition wrap (bits z : Z) : Z :=
  (z + 2 ^ (bits - 1)) mod 2 ^ bits - 2 ^ (bits - 1).

(** The conversion [int(id)] of an [int64]. *)
Definition int_of_int64 (z : Z) : Z := wrap intSize z.

End GoInt.

(* ===================================================================== *)
(** * strconv and fmt: decimal text of integers *)
(* ===================================================================== *)

Module strconv.

Inductive NumError : Type :=
| ErrSyntax
| ErrRange.

Definition is_digit (c : ascii) : bool :=
  ((48 <=? N_of_ascii c) && (N_of_ascii c <=? 57))%N.

Definition is_sign (c : ascii) : bool :=
  bool_decide (c = "-"%char) || bool_decide (c = "+"%char).

(** The digit loop: [n = n*10 + int(ch - '0')], failing on the first byte
    that is not a decimal digit. *)
Fixpoint digits (acc : Z) (s : string) : option Z :=
  match s with
  | EmptyString => Some acc
  | String ch s' =>
      if is_digit ch
      then digits (acc * 10 + (Z.of_N (N_of_ascii ch) - 48)) s'
      else None
  end.

(** [strconv.Atoi]: an optional sign followed by at least one decimal
    digit, nothing else; a value outside [int] is a range error.  The
    result is the pair [(int, error)] Go returns. *)
Definition Atoi (s : string) : Z * option NumError :=
  match s with
  | EmptyString => (0, Some ErrSyntax)
  | String c rest =>
      let body := if is_sign c then rest else s in
      match body with
      | EmptyString => (0, Some ErrSyntax)
      | _ =>
          match digits 0 body with
          | None => (0, Some ErrSyntax)
          | Some n =>
              let v := if bool_decide (c = "-"%char) then - n else n in
              if bool_decide (v < GoInt.minInt) then (GoInt.minInt, Some ErrRange)
              else if bool_decide (GoInt.maxInt < v) then (GoInt.maxInt, Some ErrRange)
              else (v, None)
          end
      end
  end.

(** The verb [%d] of package fmt, and [strconv.Itoa]. *)
Definition Itoa (z : Z) : string := NilZero.string_of_int (Z.to_int z).

(** The value of a decimal numeral read most significant digit first,
    starting from [acc]. *)
Fixpoint uint_value (acc : Z) (d : Decimal.uint) : Z :=
  match d with
  | Decimal.Nil => acc
  | Decimal.D0 d => uint_value (acc * 10 + 0) d
  | Decimal.D1 d => uint_value (acc * 10 + 1) d
  | Decimal.D2 d => uint_value (acc * 10 + 2) d
  | Decimal.D3 d => uint_value (acc * 10 + 3) d
  | Decimal.D4 d => uint_value (acc * 10 + 4) d
  | Decimal.D5 d => uint_value (acc * 10 + 5) d
  | Decimal.D6 d => uint_value (acc * 10 + 6) d
  | Decimal.D7 d => uint_value (acc * 10 + 7) d
  | Decimal.D8 d => uint_value (acc * 10 + 8) d
  | Decimal.D9 d => uint_value (acc * 10 + 9) d
  end.

End strconv.

(* ===================================================================== *)
(** * Error values *)
(* ===================================================================== *)

(** The error values that cross the DAO: the ones that database/sql and the
  MySQL driver produce, and the sentinel of package models. *)

Module sqlerr.

(** Errors native to the storage layer. *)
Inductive storage_error : Type :=
| ErrNoRows                                  (* sql.ErrNoRows *)
| ErrConnDone                                (* sql.ErrConnDone *)
| ErrBadConn                                 (* driver.ErrBadConn *)
| MySQLError (number : Z) (message : string) (* *mysql.MySQLError *)
| ScanError (message : string).              (* a conversion failure of Row.Scan *)

#[global] Instance storage_error_eq_dec : EqDecision storage_error.
Proof. solve_decision. Defined.

End sqlerr.
Export sqlerr.

Module models.

(** Modelled from the spec: pkg/models/models.go, which declares the
    Snippet entity (identifier, title, content, created and expires
    timestamps) and the one sentinel error ErrNoRecord.  Timestamps are
    UTC seconds. *)
Record Snippet : Type := mkSnippet {
  ID : Z;
  Title : string;
  Content : string;
  Created : Z;
  Expires : Z
}.

(** A Go [error] as the DAO's callers see it: the sentinel of this
    package, or a value that comes from the storage layer. *)
Inductive error : Type :=
| ErrNoRecord
| Storage (e : storage_error).

#[global] Instance error_eq_dec : EqDecision error.
Proof. solve_decision. Defined.

#[global] Instance Snippet_eq_dec : EqDecision Snippet.
Proof. solve_decision. Defined.

(** [&models.Snippet{}] *)
Definition zero : Snippet := mkSnippet 0 EmptyString EmptyString 0 0.

(** An error value is storage-engine-native when the storage layer made
    it, and storage-agnostic otherwise. *)
Definition storage_native (e : error) : bool :=
  match e with
  | ErrNoRecord => false
  | Storage _ => true
  end.

End models.
Export models.

(* ===================================================================== *)
(** * The storage engine behind database/sql *)
(* ===================================================================== *)

(** The server the connection pool talks to, as far as the DAO can observe
    it: one table [snippets] keyed by its auto-assigned primary key, the
    server clock that [UTC_TIMESTAMP()] reads, the statements received, and
    a script of the failures the coming round trips will meet (a lost
    connection, a constraint violation, a failing conversion in Scan).
    Timestamps are whole seconds and are not bounded above. *)

Module sql.

(** A value bound to a placeholder ([driver.Value]). *)
Inductive Value : Type :=
| VString (s : string)
| VInt (z : Z).

Record Row : Type := mkRow {
  title : string;
  content : string;
  created : Z;
  expires : Z
}.

Record DB : Type := mkDB {
  snippets : gmap Z Row;                     (* the table, by primary key *)
  auto_increment : Z;                        (* the key the next row gets *)
  utc_timestamp : Z;                         (* UTC_TIMESTAMP(), in seconds *)
  faults : list (option storage_error);      (* per round trip; None: goes through *)
  last_insert_id_error : option storage_error;
                                             (* set when the driver cannot report keys *)
  statements : list (string * list Value)    (* received so far, newest first *)
}.

Definition day : Z := 86400.

Definition LF : string := String (ascii_of_nat 10) EmptyString.
Definition TAB : string := String (ascii_of_nat 9) EmptyString.

Definition is_space (c : ascii) : bool :=
  match N_of_ascii c with
  | 9%N | 10%N | 13%N | 32%N => true
  | _ => false
  end.

(** The statement text cut at white space. *)
Fixpoint words_from (cur : string) (s : string) : list string :=
  match s with
  | EmptyString => if bool_decide (cur = EmptyString) then [] else [cur]
  | String c s' =>
      if is_space c
      then (if bool_decide (cur = EmptyString) then words_from EmptyString s'
            else cur :: words_from EmptyString s')
      else words_from (cur +:+ String c EmptyString) s'
  end.

Definition words (s : string) : list string := words_from EmptyString s.

(** The two statements the engine is modelled for; any other text is a
    syntax error. *)
Inductive Statement : Type :=
| InsertSnippet
| SelectLiveSnippet.

Definition parse (text : string) : option Statement :=
  let ws := words text in
  if bool_decide (ws =
       ["INSERT"; "INTO"; "snippets"; "(title,"; "content,"; "created,";
        "expires)"; "VALUES(?,"; "?,"; "UTC_TIMESTAMP(),";
        "DATE_ADD(UTC_TIMESTAMP(),"; "INTERVAL"; "?"; "DAY))"])
  then Some InsertSnippet
  else if bool_decide (ws =
       ["SELECT"; "id,"; "title,"; "content,"; "created,"; "expires"; "FROM";
        "snippets"; "WHERE"; "expires"; ">"; "UTC_TIMESTAMP()"; "AND"; "id";
        "="; "?"])
  then Some SelectLiveSnippet
  else None.

(** Text bound to a numeric position is read as a decimal integer; text
    that is not one is refused, as the server does in strict mode. *)
Definition decimal (s : string) : option Z :=
  match s with
  | EmptyString => None
  | String c rest =>
      let body := if strconv.is_sign c then rest else s in
      match body with
      | EmptyString => None
      | _ =>
          n ← strconv.digits 0 body;
          Some (if bool_decide (c = "-"%char) then - n else n)
      end
  end.

Definition value_int (v : Value) : option Z :=
  match v with
  | VInt z => Some z
  | VString s => decimal s
  end.

Definition value_text (v : Value) : string :=
  match v with
  | VString s => s
  | VInt z => strconv.Itoa z
  end.

(** What the server sends back for one statement. *)
Record Reply : Type := mkReply {
  reply_rows : list (Z * Row);
  reply_insert_id : Z
}.

(** One round trip: the statement is recorded and the next entry of the
    failure script is consumed. *)
Definition next_fault (db : DB) : option storage_error :=
  mjoin (head (faults db)).

Definition submit (text : string) (args : list Value) (db : DB)
  : option storage_error * DB :=
  (next_fault db,
   mkDB (snippets db) (auto_increment db) (utc_timestamp db)
        (tail (faults db)) (last_insert_id_error db)
        ((text, args) :: statements db)).

(** The state a round trip leaves behind when nothing is stored. *)
Definition received (text : string) (args : list Value) (db : DB) : DB :=
  snd (submit text args db).

Definition insert_row (t c : string) (days : Z) (db : DB) : Reply * DB :=
  let id := auto_increment db in
  let now := utc_timestamp db in
  (mkReply [] id,
   mkDB (<[id := mkRow t c now (now + days * day)]> (snippets db))
        (id + 1) now (faults db) (last_insert_id_error db) (statements db)).

Definition select_live (id : Z) (db : DB) : list (Z * Row) :=
  match snippets db !! id with
  | Some r => if bool_decide (utc_timestamp db < expires r) then [(id, r)] else []
  | None => []
  end.

Definition execute (text : string) (args : list Value) (db : DB)
  : (Reply + storage_error) * DB :=
  let '(fault, db) := submit text args db in
  match fault with
  | Some e => (inr e, db)
  | None =>
      match parse text, args with
      | Some InsertSnippet, [t; c; n] =>
          match value_int n with
          | Some days =>
              let '(rep, db) := insert_row (value_text t) (value_text c) days db in
              (inl rep, db)
          | None => (inr (MySQLError 1292 "Truncated incorrect INTEGER value"), db)
          end
      | Some SelectLiveSnippet, [v] =>
          match value_int v with
          | Some id => (inl (mkReply (select_live id db) 0), db)
          | None => (inl (mkReply [] 0), db)
          end
      | Some _, _ =>
          (inr (MySQLError 1210 "Incorrect arguments to mysqld_stmt_execute"), db)
      | None, _ =>
          (inr (MySQLError 1064 "You have an error in your SQL syntax"), db)
      end
  end.

(** [sql.Result] *)
Record Result : Type := mkResult {
  insert_id : Z;
  insert_id_err : option storage_error
}.

Definition LastInsertId (r : Result) : Z * option storage_error :=
  match insert_id_err r with
  | Some e => (0, Some e)
  | None => (insert_id r, None)
  end.

(** [DB.Exec] *)
Definition Exec (text : string) (args : list Value) (db : DB)
  : (Result * option storage_error) * DB :=
  match execute text args db with
  | (inl rep, db') =>
      ((mkResult (reply_insert_id rep) (last_insert_id_error db'), None), db')
  | (inr e, db') => ((mkResult 0 None, Some e), db')
  end.

(** [*sql.Row]: the deferred error of the query, or its first row if any. *)
Record RowOf : Type := mkRowOf {
  row_err : option storage_error;
  row_first : option (Z * Row)
}.

(** [DB.QueryRow] *)
Definition QueryRow (text : string) (args : list Value) (db : DB) : RowOf * DB :=
  match execute text args db with
  | (inl rep, db') => (mkRowOf None (head (reply_rows rep)), db')
  | (inr e, db') => (mkRowOf (Some e) None, db')
  end.

(** [Row.Scan(&s.ID, &s.Title, &s.Content, &s.Created, &s.Expires)]: the
    snippet after the call and the error returned. *)
Definition Scan (r : RowOf) (s : Snippet) : Snippet * option storage_error :=
  match row_err r with
  | Some e => (s, Some e)
  | None =>
      match row_first r with
      | None => (s, Some ErrNoRows)
      | Some (id, row) =>
          (mkSnippet id (title row) (content row) (created row) (expires row), None)
      end
  end.

(** The clock moves on by [d] seconds. *)
Definition elapse (d : Z) (db : DB) : DB :=
  mkDB (snippets db) (auto_increment db) (utc_timestamp db + d)
       (faults db) (last_insert_id_error db) (statements db).

(** A row of the table that has not expired. *)
Definition live (db : DB) (id : Z) (r : Row) : Prop :=
  snippets db !! id = Some r ∧ utc_timestamp db < expires r.

Definition snippet_of (id : Z) (r : Row) : Snippet :=
  mkSnippet id (title r) (content r) (created r) (expires r).

(** The counter of the primary key is positive, fits an [int64] and lies
    above every key in use. *)
Definition well_formed (db : DB) : Prop :=
  1 ≤ auto_increment db ≤ GoInt.maxInt64 ∧
  map_Forall (λ id _, 1 ≤ id < auto_increment db) (snippets db).

End sql.

(* ===================================================================== *)
(** * pkg/models/mysql: SnippetModel *)
(* ===================================================================== *)

Module mysql.
Import sql.

(** The text of the two statements, as the raw string literals spell it. *)
Definition Insert_stmt : string :=
  "INSERT INTO snippets (title, content, created, expires)" +:+ LF +:+
  TAB +:+ TAB +:+ TAB +:+
  "  VALUES(?, ?, UTC_TIMESTAMP(), DATE_ADD(UTC_TIMESTAMP(), INTERVAL ? DAY))".

Definition Get_stmt : string :=
  "SELECT id, title, content, created, expires FROM snippets" +:+ LF +:+
  TAB +:+ "WHERE expires > UTC_TIMESTAMP() AND id = ?".

(** [SnippetModel.Insert] *)
Definition Insert (title content expires : string) (db : DB)
  : (Z * option error) * DB :=
  let stmt := Insert_stmt in
  let '((result, err), db) :=
    Exec stmt [VString title; VString content; VString expires] db in
  match err with
  | Some e => ((0, Some (Storage e)), db)
  | None =>
      let '(id, err) := LastInsertId result in
      match err with
      | Some e => ((0, Some (Storage e)), db)
      | None => ((GoInt.int_of_int64 id, None), db)
      end
  end.

(** [SnippetModel.Get] *)
Definition Get (id : Z) (db : DB) : (option Snippet * option error) * DB :=
  let stmt := Get_stmt in
  let '(row, db) := QueryRow stmt [VInt id] db in
  let s := models.zero in
  let '(s, err) := Scan row s in
  if bool_decide (err = Some ErrNoRows) then ((None, Some ErrNoRecord), db)
  else match err with
       | Some e => ((None, Some (Storage e)), db)
       | None => ((Some s, None), db)
       end.

(** [SnippetModel.Latest] *)
Definition Latest (db : DB) : (list Snippet * option error) * DB :=
  (([], None), db).

End mysql.

(* ===================================================================== *)
(** * net/http: requests and response writers *)
(* ===================================================================== *)

Module http.

Record Request : Type := mkRequest {
  Method : string;
  URL_Path : string;
  URL_Query : gmap string (list string);   (* r.URL.Query() *)
  ReqHeader : gmap string (list string);
  Body : string
}.

(** [url.Values.Get]: the first value of the key, or the empty string. *)
Definition Values_Get (v : gmap string (list string)) (key : string) : string :=
  match v !! key with
  | Some (x :: _) => x
  | _ => EmptyString
  end.

(** The response under construction: the header map the handler edits, the
    status line with the headers that went out with it once the header has
    been written, and the body bytes written so far. *)
Record ResponseWriter : Type := mkResponseWriter {
  header : gmap string (list string);
  wrote : option (Z * gmap string (list string));
  body : string
}.

Definition newResponseWriter : ResponseWriter := mkResponseWriter ∅ None EmptyString.

(** [w.Header().Set(key, value)], for keys already in canonical form. *)
Definition Header_Set (key value : string) (w : ResponseWriter) : ResponseWriter :=
  mkResponseWriter (<[key := [value]]> (header w)) (wrote w) (body w).

(** [w.Header().Del(key)] *)
Definition Header_Del (key : string) (w : ResponseWriter) : ResponseWriter :=
  mkResponseWriter (delete key (header w)) (wrote w) (body w).

(** [w.WriteHeader(code)]: the first call fixes the status and sends the
    headers as they are; a later call changes nothing. *)
Definition WriteHeader (code : Z) (w : ResponseWriter) : ResponseWriter :=
  match wrote w with
  | Some _ => w
  | None => mkResponseWriter (header w) (Some (code, header w)) (body w)
  end.

Definition bodyAllowedForStatus (status : Z) : bool :=
  negb (bool_decide (100 ≤ status ≤ 199) || bool_decide (status = 204)
        || bool_decide (status = 304)).

(** [w.Write(data)]: commits status 200 if no header was written yet. *)
Definition Write (data : string) (w : ResponseWriter) : ResponseWriter :=
  let w := match wrote w with
           | Some _ => w
           | None => WriteHeader 200 w
           end in
  match wrote w with
  | Some (status, _) =>
      if bodyAllowedForStatus status
      then mkResponseWriter (header w) (wrote w) (body w +:+ data)
      else w
  | None => w
  end.

Definition status (w : ResponseWriter) : option Z := fst <$> wrote w.
Definition sent (w : ResponseWriter) (key : string) : option (list string) :=
  '(_, h) ← wrote w; h !! key.

Definition StatusOK : Z := 200.
Definition StatusSeeOther : Z := 303.
Definition StatusBadRequest : Z := 400.
Definition StatusNotFound : Z := 404.
Definition StatusMethodNotAllowed : Z := 405.
Definition StatusInternalServerError : Z := 500.

(** [http.StatusText], on the codes above. *)
Definition StatusText (code : Z) : string :=
  match code with
  | 200 => "OK"
  | 303 => "See Other"
  | 400 => "Bad Request"
  | 404 => "Not Found"
  | 405 => "Method Not Allowed"
  | 500 => "Internal Server Error"
  | _ => EmptyString
  end.

Definition LF : string := String (ascii_of_nat 10) EmptyString.
Definition DQUOTE : string := String (ascii_of_nat 34) EmptyString.

(** [http.Error].  Which stale headers it clears first differs between Go
    releases; none of them clears [Allow] or [Location]. *)
Definition Error (msg : string) (code : Z) (w : ResponseWriter) : ResponseWriter :=
  let w := Header_Del "Content-Length" w in
  let w := Header_Set "Content-Type" "text/plain; charset=utf-8" w in
  let w := Header_Set "X-Content-Type-Options" "nosniff" w in
  let w := WriteHeader code w in
  Write (msg +:+ LF) w.

(** The headers [http.Error] leaves in the map. *)
Definition error_headers (h : gmap string (list string)) : gmap string (list string) :=
  <["X-Content-Type-Options" := ["nosniff"]]>
    (<["Content-Type" := ["text/plain; charset=utf-8"]]>
       (delete "Content-Length" h)).

Fixpoint htmlEscape (s : string) : string :=
  match s with
  | EmptyString => EmptyString
  | String c s' =>
      (match N_of_ascii c with
       | 38%N => "&amp;"
       | 60%N => "&lt;"
       | 62%N => "&gt;"
       | 34%N => "&#34;"
       | 39%N => "&#39;"
       | _ => String c EmptyString
       end) +:+ htmlEscape s'
  end.

(** [http.Redirect], for a target that is an absolute path already in
    clean form and free of non-ASCII bytes (so neither the request path
    nor path.Clean nor the hex escaping changes it), which is what the
    handlers pass. *)
Definition Redirect (r : Request) (url : string) (code : Z) (w : ResponseWriter)
  : ResponseWriter :=
  let hadCT := bool_decide (is_Some (header w !! "Content-Type")) in
  let w := Header_Set "Location" url w in
  let w := if negb hadCT &&
              (bool_decide (Method r = "GET") || bool_decide (Method r = "HEAD"))
           then Header_Set "Content-Type" "text/html; charset=utf-8" w
           else w in
  let w := WriteHeader code w in
  if negb hadCT && bool_decide (Method r = "GET")
  then Write ("<a href=" +:+ DQUOTE +:+ htmlEscape url +:+ DQUOTE +:+ ">" +:+
              StatusText code +:+ "</a>." +:+ LF +:+ LF) w
  else w.

(** [http.NotFound] *)
Definition NotFound (r : Request) (w : ResponseWriter) : ResponseWriter :=
  Error "404 page not found" StatusNotFound w.

(** A run of [Write] calls, first chunk first: all an [io.Writer] client
    can do to the response. *)
Definition write_all (chunks : list string) (w : ResponseWriter) : ResponseWriter :=
  foldl (λ w chunk, Write chunk w) w chunks.

End http.

(* ===================================================================== *)
(** * html/template, as a handler observes it *)
(* ===================================================================== *)

Module template.

(** [template.ParseFiles] reads the named files and gives a template set or
    an error text; [Execute] receives the response writer as an [io.Writer],
    so all it does is a run of [Write] calls, after which it reports an
    error or none.  What the files hold is left open. *)
Record Engine : Type := mkEngine {
  Template : Type;
  ParseFiles : list string → Template + string;
  Execute : Template → list string * option string
}.

End template.

(* ===================================================================== *)
(** * cmd/web: the application and its helpers *)
(* ===================================================================== *)

Module app.
Import sql http.

(** What one request can touch: its response writer, the storage behind
    [app.snippets], and the lines written to [app.errorLog]. *)
Record World : Type := mkWorld {
  w : ResponseWriter;
  db : DB;
  errorLog : list string
}.

(** Handlers are state transformers over the world. *)
Definition M (A : Type) : Type := World → A * World.

#[global] Instance M_ret : MRet M := λ A (a : A) (σ : World), (a, σ).
#[global] Instance M_bind : MBind M :=
  λ A B (f : A → M B) (m : M A) (σ : World), let '(a, σ') := m σ in f a σ'.

Definition run {A} (m : M A) (σ : World) : World := snd (m σ).

(** An operation on the response writer. *)
Definition respond (f : ResponseWriter → ResponseWriter) : M unit :=
  λ σ, (tt, mkWorld (f (w σ)) (db σ) (errorLog σ)).

(** An operation of the DAO on the storage. *)
Definition storage {A} (f : DB → A * DB) : M A :=
  λ σ, let '(a, d) := f (db σ) in (a, mkWorld (w σ) d (errorLog σ)).

Definition logError (line : string) : M unit :=
  λ σ, (tt, mkWorld (w σ) (db σ) (errorLog σ ++ [line])).

(** [err.Error()] *)
Definition Error_text (e : error) : string :=
  match e with
  | ErrNoRecord => "models: no matching record found"
  | Storage ErrNoRows => "sql: no rows in result set"
  | Storage ErrConnDone => "sql: connection is already closed"
  | Storage ErrBadConn => "driver: bad connection"
  | Storage (MySQLError n m) => "Error " +:+ strconv.Itoa n +:+ ": " +:+ m
  | Storage (ScanError m) => "sql: Scan error: " +:+ m
  end.

(** Modelled from the spec: cmd/web/helpers.go is not among the sources.
    A storage or infrastructure error is logged server-side and surfaced
    as an opaque 500; a client error is surfaced as the given 4xx status
    with its standard text; not-found is the client error 404. *)
Definition serverError (err : error) : M unit :=
  logError (Error_text err);;
  respond (Error (StatusText StatusInternalServerError) StatusInternalServerError).

Definition clientError (status : Z) : M unit :=
  respond (Error (StatusText status) status).

Definition notFound : M unit := clientError StatusNotFound.

(** [serverError] on an error known by its text only (it uses nothing of
    its argument but [err.Error()]). *)
Definition serverErrorText (text : string) : M unit :=
  logError text;;
  respond (Error (StatusText StatusInternalServerError) StatusInternalServerError).

(** The three template files of the home page, page file first. *)
Definition home_files : list string :=
  ["./ui/html/home.page.tmpl"; "./ui/html/base.layout.tmpl";
   "./ui/html/footer.partial.tmpl"].

End app.

(* ===================================================================== *)
(** * cmd/web/handlers.go *)
(* ===================================================================== *)

Module handlers.
Import sql http app.

Section Handlers.

(** [time.Time.String], which package fmt calls on the two timestamps. *)
Variable time_String : Z → string.

(** The verb [%v] applied to a [*models.Snippet]. *)
Definition fmt_v (s : option Snippet) : string :=
  match s with
  | None => "<nil>"
  | Some s =>
      "&{" +:+ strconv.Itoa (ID s) +:+ " " +:+ Title s +:+ " " +:+ Content s +:+
      " " +:+ time_String (Created s) +:+ " " +:+ time_String (Expires s) +:+ "}"
  end.

Definition showSnippet (r : Request) : M unit :=
  let '(id, err) := strconv.Atoi (Values_Get (URL_Query r) "id") in
  if bool_decide (err ≠ None) || bool_decide (id < 1) then
    notFound
  else
    '(s, err) ← storage (mysql.Get id);
    if bool_decide (err = Some ErrNoRecord) then
      notFound
    else
      match err with
      | Some e => serverError e
      | None => respond (Write (fmt_v s))
      end.

End Handlers.

Definition EN_DASH : string :=
  String (ascii_of_nat 226) (String (ascii_of_nat 128)
    (String (ascii_of_nat 147) EmptyString)).

Definition createSnippet (r : Request) : M unit :=
  if bool_decide (Method r ≠ "POST") then
    respond (Header_Set "Allow" "POST");;
    clientError StatusMethodNotAllowed
  else
    let title := "O snail" in
    let content :=
      "O snail" +:+ LF +:+ "Climb Mount Fuji," +:+ LF +:+
      "But slowly, slowly!" +:+ LF +:+ LF +:+ EN_DASH +:+ " Kobayashi Issa" in
    let expires := "7" in
    '(id, err) ← storage (mysql.Insert title content expires);
    match err with
    | Some e => serverError e
    | None =>
        respond (Redirect r ("/snippet?id=" +:+ strconv.Itoa id) StatusSeeOther)
    end.

Definition home (T : template.Engine) (r : Request) : M unit :=
  if bool_decide (URL_Path r ≠ "/") then
    notFound
  else
    let files := home_files in
    match template.ParseFiles T files with
    | inr err =>
        logError err;;
        serverErrorText err
    | inl ts =>
        let '(chunks, err) := template.Execute T ts in
        respond (write_all chunks);;
        match err with
        | Some e =>
            logError e;;
            serverErrorText e
        | None => mret tt
        end
    end.

End handlers.

(** ** The two earlier revisions of the handlers file *)

Module part_000.
Import sql http app.

Definition createSnippet (r : Request) : M unit :=
  if bool_decide (Method r ≠ "POST") then
    respond (Header_Set "Allow" "POST");;
    respond (WriteHeader 405);;
    respond (Write "Method Not Allowed")
  else
    respond (Write "Create a new snippet...").

Definition home (T : template.Engine) (r : Request) : M unit :=
  if bool_decide (URL_Path r ≠ "/") then
    respond (NotFound r)
  else
    let files := home_files in
    match template.ParseFiles T files with
    | inr err =>
        logError err;;
        respond (Error "Internal Server Error" 500)
    | inl ts =>
        let '(chunks, err) := template.Execute T ts in
        respond (write_all chunks);;
        match err with
        | Some e =>
            logError e;;
            respond (Error "Internal Server Error" 500)
        | None => mret tt
        end
    end.

Definition showSnippet (r : Request) : M unit :=
  let '(id, err) := strconv.Atoi (Values_Get (URL_Query r) "id") in
  if bool_decide (err ≠ None) || bool_decide (id < 1) then
    respond (NotFound r)
  else
    respond (Write ("Display a specific snippet with ID " +:+ strconv.Itoa id +:+ "...")).

End part_000.

Module part_001.
Import sql http app.

(** The [return] of the non-POST branch sits inside the line comment, so
    control reaches the final write on every path. *)
Definition createSnippet (r : Request) : M unit :=
  (if bool_decide (Method r ≠ "POST") then
     respond (Header_Set "Allow" "POST");;
     clientError StatusMethodNotAllowed
   else mret tt);;
  respond (Write "Create a new snippet...").

Definition home (T : template.Engine) (r : Request) : M unit :=
  if bool_decide (URL_Path r ≠ "/") then
    notFound
  else
    let files := home_files in
    match template.ParseFiles T files with
    | inr err =>
        logError err;;
        serverErrorText err
    | inl ts =>
        let '(chunks, err) := template.Execute T ts in
        respond (write_all chunks);;
        match err with
        | Some e =>
            logError e;;
            serverErrorText e
        | None => mret tt
        end
    end.

Definition showSnippet (r : Request) : M unit :=
  let '(id, err) := strconv.Atoi (Values_Get (URL_Query r) "id") in
  if bool_decide (err ≠ None) || bool_decide (id < 1) then
    notFound
  else
    respond (Write ("Display a specific snippet with ID " +:+ strconv.Itoa id +:+ "...")).

End part_001.

(* ===================================================================== *)
(** * Notions the specification names *)
(* ===================================================================== *)

Module contract.
Import sql.

(** Numeric text: an optional sign, then decimal digits and at least one. *)
Definition all_digits (s : string) : bool :=
  forallb strconv.is_digit (list_ascii_of_string s).

Definition numeric (s : string) : bool :=
  match s with
  | EmptyString => false
  | String c rest =>
      let body := if strconv.is_sign c then rest else s in
      negb (bool_decide (body = EmptyString)) && all_digits body
  end.

(** The live snippets of the table. *)
Definition live_snippets (db : DB) : list Snippet :=
  (λ p, snippet_of p.1 p.2) <$>
  filter (λ p, utc_timestamp db < expires p.2) (map_to_list (snippets db)).

(** What [Latest] is documented to return: the ten most recently created
    live snippets, most recent first. *)
Definition latest_contract (db : DB) (l : list Snippet) : Prop :=
  length l = Nat.min 10 (length (live_snippets db)) ∧
  NoDup l ∧
  (∀ s, s ∈ l → s ∈ live_snippets db) ∧
  (∀ i j a b, (i < j)%nat → l !! i = Some a → l !! j = Some b →
               Created b ≤ Created a) ∧
  (∀ s s', s ∈ l → s' ∈ live_snippets db → s' ∉ l → Created s' ≤ Created s).

(** An error value the propagation policy lets through the boundary of
    the DAO: the sentinel, or a failure that names nothing of the storage
    engine. *)
Definition storage_agnostic (e : error) : Prop :=
  e = ErrNoRecord ∨ storage_native e = false.

(** The number of positional placeholders in a statement text. *)
Definition placeholders (text : string) : nat :=
  length (filter (λ c, c = "?"%char) (list_ascii_of_string text)).

(** The dummy content of [createSnippet], byte for byte. *)
Definition haiku : string :=
  "O snail
Climb Mount Fuji,
But slowly, slowly!

– Kobayashi Issa".

End contract.

(** Proof steps shared below: projections of the response writer, and one
    step of a handler. *)
Ltac http_simpl := cbn [http.wrote http.body http.header fst snd].

Ltac run_M :=
  unfold app.run, app.notFound, app.serverError, app.clientError;
  unfold mbind, app.M_bind, mret, app.M_ret, app.logError, app.storage, app.respond;
  cbn [fst snd app.w app.db app.errorLog].

(* ===================================================================== *)
(** * Properties of the storage engine and of the DAO *)
(* ===================================================================== *)

Section DAO.
Import sql mysql.

Lemma parse_Insert_stmt : parse Insert_stmt = Some InsertSnippet.
Proof. reflexivity. Qed.

Lemma parse_Get_stmt : parse Get_stmt = Some SelectLiveSnippet.
Proof. reflexivity. Qed.

Lemma decimal_7 : decimal "7" = Some 7.
Proof. reflexivity. Qed.

Lemma execute_select (id : Z) (db : DB) :
  execute Get_stmt [VInt id] db =
  (match next_fault db with
   | Some e => inr e
   | None => inl (mkReply (select_live id (received Get_stmt [VInt id] db)) 0)
   end, received Get_stmt [VInt id] db).
Proof.
  unfold execute, received, submit. cbn [snd].
  destruct (next_fault db); [done|].
  rewrite parse_Get_stmt. done.
Qed.

Lemma select_live_received (id : Z) (text : string) (args : list Value) (db : DB) :
  select_live id (received text args db) = select_live id db.
Proof. done. Qed.

(** [Get] as a function of the failure script, the table and the clock. *)
Lemma Get_result (id : Z) (db : DB) :
  Get id db =
  (match next_fault db with
   | Some ErrNoRows => (None, Some ErrNoRecord)
   | Some e => (None, Some (Storage e))
   | None =>
       match snippets db !! id with
       | Some r =>
           if bool_decide (utc_timestamp db < expires r)
           then (Some (snippet_of id r), None)
           else (None, Some ErrNoRecord)
       | None => (None, Some ErrNoRecord)
       end
   end, received Get_stmt [VInt id] db).
Proof.
  unfold Get, QueryRow. cbv zeta. rewrite execute_select.
  destruct (next_fault db) as [e|].
  - destruct e; done.
  - rewrite select_live_received. unfold select_live.
    destruct (snippets db !! id) as [r|]; [|done].
    case_bool_decide; done.
Qed.

Lemma execute_insert (t c n : string) (db : DB) :
  execute Insert_stmt [VString t; VString c; VString n] db =
  match next_fault db with
  | Some e => (inr e, received Insert_stmt [VString t; VString c; VString n] db)
  | None =>
      match decimal n with
      | Some days =>
          let '(rep, db') :=
            insert_row t c days
              (received Insert_stmt [VString t; VString c; VString n] db) in
          (inl rep, db')
      | None =>
          (inr (MySQLError 1292 "Truncated incorrect INTEGER value"),
           received Insert_stmt [VString t; VString c; VString n] db)
      end
  end.
Proof.
  unfold execute, received, submit. cbn [snd].
  destruct (next_fault db); [done|].
  rewrite parse_Insert_stmt. cbn [value_int value_text].
  destruct (decimal n); done.
Qed.

Lemma wrap_small (z : Z) :
  GoInt.minInt64 ≤ z ≤ GoInt.maxInt64 → GoInt.int_of_int64 z = z.
Proof.
  unfold GoInt.int_of_int64, GoInt.wrap, GoInt.intSize, GoInt.minInt64, GoInt.maxInt64.
  intros H.
  change (2 ^ (64 - 1)) with 9223372036854775808.
  change (2 ^ 64) with 18446744073709551616.
  change (2 ^ 63) with 9223372036854775808 in H.
  rewrite Z.mod_small; lia.
Qed.


(** [Insert] when the round trip goes through and the driver can report
    the new key. *)
Lemma Insert_result_ok (t c : string) (db : DB) :
  well_formed db → next_fault db = None → last_insert_id_error db = None →
  Insert t c "7" db =
  ((auto_increment db, None),
   snd (insert_row t c 7 (received Insert_stmt [VString t; VString c; VString "7"] db))).
Proof.
  intros [Hai _] Hf Hl. unfold Insert, Exec. cbv zeta.
  rewrite execute_insert, Hf, decimal_7. cbn.
  unfold LastInsertId. cbn. rewrite Hl.
  rewrite wrap_small; [done|].
  unfold GoInt.minInt64, GoInt.maxInt64 in *. lia.
Qed.

(** The store stays well-formed as long as the key counter has room. *)
Lemma received_well_formed (text : string) (args : list Value) (db : DB) :
  well_formed db → well_formed (received text args db).
Proof. done. Qed.

Lemma insert_row_well_formed (t c : string) (days : Z) (db : DB) :
  well_formed db → auto_increment db < GoInt.maxInt64 →
  well_formed (snd (insert_row t c days db)).
Proof.
  intros [Hai Hkeys] Hroom. unfold insert_row, well_formed.
  cbn [snd snippets auto_increment]. split; [lia|].
  apply map_Forall_insert_2; [lia|].
  eapply map_Forall_impl; [exact Hkeys|].
  intros id row Hid. cbn beta in *. lia.
Qed.

Lemma Insert_well_formed (t c x : string) (db : DB) :
  well_formed db → auto_increment db < GoInt.maxInt64 →
  well_formed (snd (Insert t c x db)).
Proof.
  intros Hwf Hroom. unfold Insert, Exec. cbv zeta. rewrite execute_insert.
  destruct (next_fault db); [by apply received_well_formed|].
  destruct (decimal x) as [days|]; [|by apply received_well_formed].
  pose proof (insert_row_well_formed t c days
                (received Insert_stmt [VString t; VString c; VString x] db)
                (received_well_formed _ _ _ Hwf) Hroom) as Hwf'.
  destruct (insert_row t c days _) as [rep db'].
  cbn [snd fst] in *.
  destruct (LastInsertId _) as [n [e|]]; exact Hwf'.
Qed.

Lemma Get_well_formed (id : Z) (db : DB) :
  well_formed db → well_formed (snd (Get id db)).
Proof. intros Hwf. rewrite Get_result. by apply received_well_formed. Qed.

(** C1: [Get id] returns a snippet exactly when the round trip goes
    through and the table holds a row under [id] whose expires timestamp is
    strictly after the clock, and then it is that row; when the round trip
    goes through (or reports no rows) and there is no such row, expired
    rows included, the result is [ErrNoRecord]; the raw no-rows error of
    the storage layer is never returned; every other storage failure is
    returned as it is. *)
Theorem Get_live_or_ErrNoRecord (id : Z) (db : DB) :
  (∀ s, fst (Get id db) = (Some s, None) ↔
        next_fault db = None ∧ ∃ r, live db id r ∧ s = snippet_of id r) ∧
  (∀ s err, fst (Get id db) = (Some s, err) → err = None) ∧
  (next_fault db = None ∨ next_fault db = Some ErrNoRows →
   (¬ ∃ r, live db id r) →
   fst (Get id db) = (None, Some ErrNoRecord)) ∧
  snd (fst (Get id db)) ≠ Some (Storage ErrNoRows) ∧
  (∀ e, next_fault db = Some e → e ≠ ErrNoRows →
        fst (Get id db) = (None, Some (Storage e))).
Proof.
  rewrite Get_result. cbn [fst snd]. unfold live.
  split_and!.
  - intros s. split.
    + intros H. destruct (next_fault db) as [e|]; [by destruct e|].
      destruct (snippets db !! id) as [r|] eqn:Hr; [|done].
      case_bool_decide; [|done]. split; [done|].
      exists r. split_and!; [done..|]. congruence.
    + intros [Hf (r & [Hr Hlive] & ->)]. rewrite Hf, Hr.
      by rewrite bool_decide_true.
  - intros s err H. destruct (next_fault db) as [e|]; [by destruct e|].
    destruct (snippets db !! id) as [r|]; [|done].
    case_bool_decide; congruence.
  - intros [Hf|Hf] Hno; rewrite Hf; [|done].
    destruct (snippets db !! id) as [r|] eqn:Hr; [|done].
    case_bool_decide; [|done]. destruct Hno. by exists r.
  - destruct (next_fault db) as [e|]; [by destruct e|].
    destruct (snippets db !! id) as [r|]; [|done].
    case_bool_decide; done.
  - intros e Hf Hne. rewrite Hf. by destruct e.
Qed.

(** C2: on a well-formed store whose round trips go through, inserting
    with expiry "7" and fetching the returned id before seven days have
    passed gives back a snippet with that id, the inserted title and
    content, and [expires = created + 7 days] to the second. *)
Theorem Insert_Get_round_trip (title content : string) (db : DB) (d : Z) :
  well_formed db → faults db = [] → last_insert_id_error db = None →
  0 ≤ d < 7 * day →
  ∃ id db1 s db2,
    Insert title content "7" db = ((id, None), db1) ∧
    Get id (elapse d db1) = ((Some s, None), db2) ∧
    ID s = id ∧ Title s = title ∧ Content s = content ∧
    Expires s = Created s + 7 * day ∧ Created s = utc_timestamp db.
Proof.
  intros Hwf Hf Hl Hd.
  assert (next_fault db = None) as Hnf by (unfold next_fault; by rewrite Hf).
  rewrite (Insert_result_ok _ _ _ Hwf Hnf Hl).
  eexists _, _, _, _. split; [reflexivity|].
  rewrite Get_result.
  unfold next_fault, elapse, insert_row, received, submit. cbn.
  rewrite Hf. cbn. rewrite lookup_insert_eq. cbn.
  rewrite bool_decide_true by (unfold day in *; lia).
  done.
Qed.

(** The round trip on an empty table at second 1000, fetched an hour later. *)
Lemma Insert_Get_round_trip_witness :
  ∃ id db1 s db2,
    Insert "An old silent pond" "A frog jumps in" "7" (mkDB ∅ 1 1000 [] None [])
      = ((id, None), db1) ∧
    Get id (elapse 3600 db1) = ((Some s, None), db2) ∧
    ID s = id ∧ Title s = "An old silent pond" ∧ Content s = "A frog jumps in" ∧
    Expires s = Created s + 7 * day ∧ Created s = 1000.
Proof.
  apply (Insert_Get_round_trip "An old silent pond" "A frog jumps in"
           (mkDB ∅ 1 1000 [] None []) 3600).
  - split; [done|]. apply map_Forall_empty.
  - reflexivity.
  - reflexivity.
  - done.
Defined.

Lemma Insert_error (t c x : string) (db : DB) :
  snd (fst (Insert t c x db)) =
  Storage <$>
    (match snd (fst (Exec Insert_stmt [VString t; VString c; VString x] db)) with
     | Some se => Some se
     | None =>
         snd (LastInsertId
                (fst (fst (Exec Insert_stmt [VString t; VString c; VString x] db))))
     end).
Proof.
  unfold Insert. cbv zeta.
  destruct (Exec Insert_stmt _ db) as [[res err] db']. cbn [fst snd].
  destruct err as [se|]; [done|].
  destruct (LastInsertId res) as [n [se|]]; done.
Qed.

Lemma Get_error (id : Z) (db : DB) :
  snd (fst (Get id db)) =
  (λ se, if bool_decide (se = ErrNoRows) then ErrNoRecord else Storage se) <$>
    snd (Scan (fst (QueryRow Get_stmt [VInt id] db)) models.zero).
Proof.
  unfold Get. cbv zeta.
  destruct (QueryRow Get_stmt _ db) as [row db']. cbn [fst snd].
  destruct (Scan row models.zero) as [s [se|]]; cbn;
    repeat case_bool_decide; simplify_eq; done.
Qed.

(** C3, as the code has it: only the no-rows signal is translated.  [Get]
    returns [ErrNoRecord] exactly when Scan reports [sql.ErrNoRows], and
    never that signal itself; every other error of [Get], and every error
    of [Insert] (from Exec or from LastInsertId), is the storage layer's
    own value, handed on unchanged. *)
Theorem DAO_translates_only_no_rows (db : DB) :
  (∀ id e, snd (fst (Get id db)) = Some e ↔
     ∃ se, snd (Scan (fst (QueryRow Get_stmt [VInt id] db)) models.zero) = Some se ∧
           ((se = ErrNoRows ∧ e = ErrNoRecord) ∨ (se ≠ ErrNoRows ∧ e = Storage se))) ∧
  (∀ id, snd (fst (Get id db)) ≠ Some (Storage ErrNoRows)) ∧
  (∀ t c x e, snd (fst (Insert t c x db)) = Some e ↔
     ∃ se, e = Storage se ∧
       (snd (fst (Exec Insert_stmt [VString t; VString c; VString x] db)) = Some se ∨
        (snd (fst (Exec Insert_stmt [VString t; VString c; VString x] db)) = None ∧
         snd (LastInsertId
                (fst (fst (Exec Insert_stmt [VString t; VString c; VString x] db))))
           = Some se))).
Proof.
  split_and!.
  - intros id e. rewrite Get_error.
    destruct (snd (Scan _ _)) as [se|]; cbn.
    + split.
      * intros [= <-]. exists se. split; [done|].
        case_bool_decide; [left|right]; done.
      * intros (se' & [= <-] & [[-> ->]|[Hne ->]]); [done|].
        by rewrite bool_decide_false.
    + split; [done|]. by intros (se & ? & _).
  - intros id. rewrite Get_error.
    destruct (snd (Scan _ _)) as [se|]; cbn; [|done].
    case_bool_decide; congruence.
  - intros t c x e. rewrite Insert_error.
    destruct (snd (fst (Exec _ _ db))) as [se|]; cbn.
    + split.
      * intros [= <-]. exists se. auto.
      * intros (se' & -> & [[= ->]|[? _]]); done.
    + destruct (snd (LastInsertId _)) as [se|]; cbn.
      * split.
        -- intros [= <-]. exists se. auto.
        -- intros (se' & -> & [?|[_ [= ->]]]); done.
      * split; [done|]. intros (se' & _ & [?|[_ ?]]); done.
Qed.

(** C3, as stated, fails: when the server refuses the connection, [Insert]
    hands the driver's own error value to its caller. *)
Lemma Insert_hands_on_driver_error :
  snd (fst (Insert "O snail" "Climb Mount Fuji" "7"
              (mkDB ∅ 1 1000 [Some (MySQLError 1040 "Too many connections")] None [])))
    = Some (Storage (MySQLError 1040 "Too many connections")) ∧
  storage_native (Storage (MySQLError 1040 "Too many connections")) = true ∧
  ¬ contract.storage_agnostic (Storage (MySQLError 1040 "Too many connections")) ∧
  ¬ (∀ t c x db e, snd (fst (Insert t c x db)) = Some e → contract.storage_agnostic e).
Proof.
  assert (¬ contract.storage_agnostic
              (Storage (MySQLError 1040 "Too many connections"))) as Hna
    by (intros [?|?]; done).
  split_and!; [reflexivity|reflexivity|done|].
  intros H. apply Hna.
  apply (H "O snail" "Climb Mount Fuji" "7"
           (mkDB ∅ 1 1000 [Some (MySQLError 1040 "Too many connections")] None [])).
  reflexivity.
Qed.

Lemma Insert_statements (t c x : string) (db : DB) :
  statements (snd (Insert t c x db)) =
  (Insert_stmt, [VString t; VString c; VString x]) :: statements db.
Proof.
  unfold Insert, Exec. cbv zeta. rewrite execute_insert.
  destruct (next_fault db); [done|].
  destruct (decimal x); [|done]. cbn.
  destruct (LastInsertId _) as [n [e|]]; done.
Qed.

Lemma Get_statements (id : Z) (db : DB) :
  statements (snd (Get id db)) = (Get_stmt, [VInt id]) :: statements db.
Proof. by rewrite Get_result. Qed.

(** C8: each call of [Insert] submits exactly one statement, whose text is
    the constant [Insert_stmt] whatever the title, content and expiry are,
    and each call of [Get] exactly one with the constant text [Get_stmt]
    whatever the id is; the caller's values travel in the argument list,
    one per placeholder, in order.  So any two calls of one operation
    submit the same text. *)
Theorem SQL_text_is_constant :
  (∀ t c x db,
     statements (snd (Insert t c x db)) =
     (Insert_stmt, [VString t; VString c; VString x]) :: statements db) ∧
  (∀ id db,
     statements (snd (Get id db)) = (Get_stmt, [VInt id]) :: statements db) ∧
  (∀ t c x db t' c' x' db',
     fst <$> head (statements (snd (Insert t c x db))) =
     fst <$> head (statements (snd (Insert t' c' x' db')))) ∧
  (∀ id db id' db',
     fst <$> head (statements (snd (Get id db))) =
     fst <$> head (statements (snd (Get id' db')))) ∧
  contract.placeholders Insert_stmt = 3%nat ∧
  contract.placeholders Get_stmt = 1%nat.
Proof.
  split_and!.
  - apply Insert_statements.
  - apply Get_statements.
  - intros. by rewrite !Insert_statements.
  - intros. by rewrite !Get_statements.
  - reflexivity.
  - reflexivity.
Qed.

(** C7: [Latest] returns the empty sequence and no error on every store,
    and leaves the store as it is; that answer meets the documented
    contract (the ten most recent live snippets, newest first) only when
    no snippet is live. *)
Theorem Latest_returns_nothing (db : DB) :
  Latest db = (([], None), db) ∧
  (contract.latest_contract db (fst (fst (Latest db))) ↔
   contract.live_snippets db = []).
Proof.
  split; [done|]. cbn. unfold contract.latest_contract. split.
  - intros (Hlen & _). cbn in Hlen.
    destruct (contract.live_snippets db) as [|s l]; [done|].
    cbn in Hlen. lia.
  - intros ->. split_and!; cbn.
    + done.
    + constructor.
    + intros s H. by apply elem_of_nil in H.
    + intros i j a b _ H. by rewrite lookup_nil in H.
    + intros s s' H. by apply elem_of_nil in H.
Qed.

End DAO.

(* ===================================================================== *)
(** * Properties of the response writer and of strconv *)
(* ===================================================================== *)

Section Responses.
Import http.

Lemma WriteHeader_fresh (code : Z) (rw : ResponseWriter) :
  wrote rw = None →
  WriteHeader code rw = mkResponseWriter (header rw) (Some (code, header rw)) (body rw).
Proof. unfold WriteHeader. by intros ->. Qed.

Lemma Error_fresh (msg : string) (code : Z) (rw : ResponseWriter) :
  wrote rw = None →
  Error msg code rw =
  mkResponseWriter (error_headers (header rw))
    (Some (code, error_headers (header rw)))
    (if bodyAllowedForStatus code then body rw +:+ msg +:+ LF else body rw).
Proof.
  intros H. unfold Error, Write, WriteHeader, Header_Set, Header_Del. http_simpl.
  rewrite H. http_simpl. by destruct (bodyAllowedForStatus code).
Qed.

Lemma Error_status (msg : string) (code : Z) (rw : ResponseWriter) :
  wrote rw = None → status (Error msg code rw) = Some code.
Proof. intros H. by rewrite Error_fresh. Qed.

Lemma Error_sent (msg : string) (code : Z) (rw : ResponseWriter) (key : string) :
  wrote rw = None →
  key ≠ "Content-Length" → key ≠ "Content-Type" → key ≠ "X-Content-Type-Options" →
  sent (Error msg code rw) key = header rw !! key.
Proof.
  intros H H1 H2 H3. rewrite Error_fresh by done.
  unfold sent, error_headers. http_simpl. cbn [mbind option_bind].
  by rewrite !lookup_insert_ne, lookup_delete_ne.
Qed.

Lemma Error_body (msg : string) (code : Z) (rw : ResponseWriter) :
  wrote rw = None → bodyAllowedForStatus code = true →
  body (Error msg code rw) = body rw +:+ msg +:+ LF.
Proof. intros H Hb. rewrite Error_fresh by done. http_simpl. by rewrite Hb. Qed.

Lemma digits_not_all (s : string) (acc : Z) :
  contract.all_digits s = false → strconv.digits acc s = None.
Proof.
  unfold contract.all_digits. revert acc.
  induction s as [|c s IH]; intros acc; cbn; [done|].
  destruct (strconv.is_digit c); cbn; [apply IH|done].
Qed.

Lemma digits_all (s : string) (acc : Z) :
  contract.all_digits s = true → is_Some (strconv.digits acc s).
Proof.
  unfold contract.all_digits. revert acc.
  induction s as [|c s IH]; intros acc; cbn; [done|].
  destruct (strconv.is_digit c); cbn; [apply IH|done].
Qed.

Lemma Write_fresh (data : string) (rw : ResponseWriter) :
  wrote rw = None →
  Write data rw =
  mkResponseWriter (header rw) (Some (200, header rw)) (body rw +:+ data).
Proof. intros H. unfold Write, WriteHeader. rewrite H. http_simpl. done. Qed.

Lemma Write_wrote (data : string) (rw : ResponseWriter) (code : Z)
    (h : gmap string (list string)) :
  wrote rw = Some (code, h) → bodyAllowedForStatus code = true →
  Write data rw = mkResponseWriter (header rw) (wrote rw) (body rw +:+ data).
Proof. intros H Hb. unfold Write. rewrite H. http_simpl. by rewrite H, Hb. Qed.

Lemma Redirect_POST (r : Request) (url : string) (code : Z) (rw : ResponseWriter) :
  Method r = "POST" → wrote rw = None →
  Redirect r url code rw =
  mkResponseWriter (<["Location" := [url]]> (header rw))
    (Some (code, <["Location" := [url]]> (header rw))) (body rw).
Proof.
  intros Hm Hw. unfold Redirect. rewrite Hm.
  rewrite (bool_decide_false ("POST" = "GET")) by done.
  rewrite (bool_decide_false ("POST" = "HEAD")) by done.
  rewrite !andb_false_r.
  unfold WriteHeader, Header_Set. http_simpl. by rewrite Hw.
Qed.

Lemma append_assoc (a b c : string) : (a +:+ b) +:+ c = a +:+ (b +:+ c).
Proof.
  induction a as [|x a IH]; [done|].
  change (String x ((a +:+ b) +:+ c) = String x (a +:+ (b +:+ c))).
  by rewrite IH.
Qed.

(** Text that is not numeric is a syntax error for [Atoi], and only such
    text is. *)
Lemma Atoi_syntax (s : string) :
  contract.numeric s = false ↔ snd (strconv.Atoi s) = Some strconv.ErrSyntax.
Proof.
  unfold contract.numeric, strconv.Atoi.
  destruct s as [|c rest]; [done|].
  set (body := if strconv.is_sign c then rest else String c rest).
  destruct body as [|c' body'] eqn:Hbody; [done|].
  rewrite bool_decide_false by done. cbn [negb andb].
  destruct (contract.all_digits (String c' body')) eqn:Hd.
  - destruct (digits_all _ 0 Hd) as [n ->].
    split; [done|]. repeat case_bool_decide; done.
  - rewrite (digits_not_all _ 0 Hd). done.
Qed.

End Responses.

(* ===================================================================== *)
(** * Properties of the handlers *)
(* ===================================================================== *)

Section HandlerFacts.
Import sql mysql http app.

Variable time_String : Z → string.

Lemma handler_content :
  "O snail" +:+ LF +:+ "Climb Mount Fuji," +:+ LF +:+
  "But slowly, slowly!" +:+ LF +:+ LF +:+ handlers.EN_DASH +:+ " Kobayashi Issa"
  = contract.haiku.
Proof. reflexivity. Qed.

Lemma createSnippet_POST (r : Request) (σ : World) :
  Method r = "POST" →
  handlers.createSnippet r σ =
  let '((id, err), d) := Insert "O snail" contract.haiku "7" (db σ) in
  match err with
  | Some e => serverError e (mkWorld (w σ) d (errorLog σ))
  | None =>
      respond (Redirect r ("/snippet?id=" +:+ strconv.Itoa id) StatusSeeOther)
        (mkWorld (w σ) d (errorLog σ))
  end.
Proof.
  intros Hm. unfold handlers.createSnippet.
  rewrite bool_decide_false by (intros H; by apply H).
  cbv zeta. rewrite handler_content.
  unfold mbind, M_bind, storage.
  destruct (Insert _ _ _ (db σ)) as [[id err] d]. by destruct err.
Qed.

Lemma Insert_7 (t c : string) (d : DB) :
  Insert t c "7" d =
  match next_fault d with
  | Some e =>
      ((0, Some (Storage e)),
       received Insert_stmt [VString t; VString c; VString "7"] d)
  | None =>
      (match last_insert_id_error d with
       | Some e => (0, Some (Storage e))
       | None => (GoInt.int_of_int64 (auto_increment d), None)
       end,
       snd (insert_row t c 7
              (received Insert_stmt [VString t; VString c; VString "7"] d)))
  end.
Proof.
  unfold Insert, Exec. cbv zeta. rewrite execute_insert.
  destruct (next_fault d); [done|].
  rewrite decimal_7. cbn. unfold LastInsertId. cbn.
  by destruct (last_insert_id_error d).
Qed.

Lemma showSnippet_invalid (r : Request) (σ : World) (id : Z)
    (err : option strconv.NumError) :
  strconv.Atoi (Values_Get (URL_Query r) "id") = (id, err) →
  err ≠ None ∨ id < 1 →
  handlers.showSnippet time_String r σ = notFound σ.
Proof.
  intros HA Hbad. unfold handlers.showSnippet. rewrite HA.
  destruct Hbad as [Hbad|Hbad].
  - by rewrite bool_decide_true.
  - rewrite (bool_decide_true (id < 1)) by done. by rewrite orb_true_r.
Qed.

Lemma showSnippet_valid (r : Request) (σ : World) (id : Z) :
  strconv.Atoi (Values_Get (URL_Query r) "id") = (id, None) → 1 ≤ id →
  handlers.showSnippet time_String r σ =
  let '((s, err), d) := Get id (db σ) in
  match err with
  | Some ErrNoRecord => notFound (mkWorld (w σ) d (errorLog σ))
  | Some e => serverError e (mkWorld (w σ) d (errorLog σ))
  | None =>
      respond (Write (handlers.fmt_v time_String s)) (mkWorld (w σ) d (errorLog σ))
  end.
Proof.
  intros HA Hid. unfold handlers.showSnippet. rewrite HA.
  rewrite bool_decide_false by (intros H; by apply H).
  rewrite bool_decide_false by lia. cbn [orb].
  unfold mbind, M_bind, storage.
  destruct (Get id (db σ)) as [[s [e|]] d].
  - destruct e; [by rewrite bool_decide_true|by rewrite bool_decide_false].
  - by rewrite bool_decide_false.
Qed.



(** C5: on a fresh response writer, any method other than POST is answered
    405 with the header [Allow: POST] among the headers sent, and neither
    the storage nor the error log is touched. *)
Theorem createSnippet_method_not_allowed (r : Request) (σ : World) :
  Method r ≠ "POST" → wrote (w σ) = None →
  status (w (run (handlers.createSnippet r) σ)) = Some 405 ∧
  sent (w (run (handlers.createSnippet r) σ)) "Allow" = Some ["POST"] ∧
  db (run (handlers.createSnippet r) σ) = db σ ∧
  errorLog (run (handlers.createSnippet r) σ) = errorLog σ.
Proof.
  intros Hm Hw. unfold handlers.createSnippet.
  rewrite bool_decide_true by done. run_M.
  split_and!.
  - by apply Error_status.
  - rewrite Error_sent by done. unfold Header_Set. http_simpl.
    by rewrite lookup_insert_eq.
  - done.
  - done.
Qed.

(** C6: for a POST on a fresh response writer and a well-formed store,
    whatever [Insert] returns decides the answer.  If it returns the id [N]
    and no error, the answer is 303 with [Location: /snippet?id=N] and no
    body, and [N] is positive and is the key, unused before, under which
    the row now sits; if it returns an error, the answer is 500 and no
    Location header is added. *)
Theorem createSnippet_redirects (r : Request) (σ : World) :
  Method r = "POST" → wrote (w σ) = None → well_formed (db σ) →
  ∀ N err d,
    Insert "O snail" contract.haiku "7" (db σ) = ((N, err), d) →
    db (run (handlers.createSnippet r) σ) = d ∧
    match err with
    | None =>
        status (w (run (handlers.createSnippet r) σ)) = Some 303 ∧
        sent (w (run (handlers.createSnippet r) σ)) "Location"
          = Some ["/snippet?id=" +:+ strconv.Itoa N] ∧
        body (w (run (handlers.createSnippet r) σ)) = body (w σ) ∧
        1 ≤ N ∧ N = auto_increment (db σ) ∧
        snippets (db σ) !! N = None ∧ is_Some (snippets d !! N)
    | Some e =>
        status (w (run (handlers.createSnippet r) σ)) = Some 500 ∧
        sent (w (run (handlers.createSnippet r) σ)) "Location"
          = header (w σ) !! "Location"
    end.
Proof.
  intros Hm Hw [Hai Hkeys] N err d HI.
  unfold run. rewrite createSnippet_POST, HI by done.
  rewrite Insert_7 in HI.
  destruct err as [e|].
  - run_M. split_and!; [done| |].
    + by apply Error_status.
    + by rewrite Error_sent.
  - run_M. rewrite Redirect_POST by done.
    destruct (next_fault (db σ)); [done|].
    destruct (last_insert_id_error (db σ)); [done|].
    rewrite wrap_small in HI
      by (unfold GoInt.minInt64, GoInt.maxInt64 in *; lia).
    injection HI as <- <-.
    unfold sent, status, insert_row. http_simpl.
    cbn [mbind option_bind fmap option_map snippets auto_increment received submit].
    rewrite !lookup_insert_eq.
    split_and!; try done.
    + lia.
    + destruct (snippets (db σ) !! auto_increment (db σ)) as [row|] eqn:Hrow; [|done].
      apply Hkeys in Hrow. cbn beta in Hrow. lia.
Qed.

(** C9: a POST always submits the one INSERT with the arguments "O snail",
    the haiku and "7"; the whole outcome is the same for any two POST
    requests on the same world, whatever their path, query, headers and
    body; and when [Insert] reports no error the row stored under the new
    key has that title and content and expires seven days after its
    creation. *)
Theorem createSnippet_inserts_fixed_values (r : Request) (σ : World) :
  Method r = "POST" →
  statements (db (run (handlers.createSnippet r) σ)) =
    (Insert_stmt, [VString "O snail"; VString contract.haiku; VString "7"])
      :: statements (db σ) ∧
  (∀ r', Method r' = "POST" →
         run (handlers.createSnippet r') σ = run (handlers.createSnippet r) σ) ∧
  (snd (fst (Insert "O snail" contract.haiku "7" (db σ))) = None →
   snippets (db (run (handlers.createSnippet r) σ)) !! auto_increment (db σ) =
     Some (mkRow "O snail" contract.haiku (utc_timestamp (db σ))
             (utc_timestamp (db σ) + 7 * day))).
Proof.
  intros Hm. split_and!.
  - unfold run. rewrite createSnippet_POST by done.
    pose proof (Insert_statements "O snail" contract.haiku "7" (db σ)) as Hs.
    destruct (Insert _ _ _ (db σ)) as [[id [e|]] d]; run_M; cbn [snd] in Hs; done.
  - intros r' Hm'. unfold run. rewrite !createSnippet_POST by done.
    destruct (Insert _ _ _ (db σ)) as [[id [e|]] d]; [done|].
    unfold respond, Redirect. by rewrite Hm, Hm'.
  - unfold run. rewrite createSnippet_POST by done.
    rewrite Insert_7.
    destruct (next_fault (db σ)); [done|].
    destruct (last_insert_id_error (db σ)); [done|].
    intros _. run_M. unfold insert_row.
    cbn [snd snippets auto_increment utc_timestamp received submit].
    by rewrite lookup_insert_eq.
Qed.

(** C10: for a request that is not a POST, on a fresh response writer, the
    later revision does everything the final handler does and then goes on
    to write "Create a new snippet...": the status stays 405 and the body
    is the 405 text followed by that line.  The final handler and the
    earlier revision stop after the 405 text, so the later revision's
    outcome differs from both. *)
Theorem part_001_falls_through (r : Request) (σ : World) :
  Method r ≠ "POST" → wrote (w σ) = None →
  run (part_001.createSnippet r) σ =
    run (respond (Write "Create a new snippet...")) (run (handlers.createSnippet r) σ) ∧
  status (w (run (part_001.createSnippet r) σ)) = Some 405 ∧
  body (w (run (part_001.createSnippet r) σ)) =
    body (w σ) +:+ "Method Not Allowed" +:+ LF +:+ "Create a new snippet..." ∧
  body (w (run (handlers.createSnippet r) σ)) =
    body (w σ) +:+ "Method Not Allowed" +:+ LF ∧
  body (w (run (part_000.createSnippet r) σ)) =
    body (w σ) +:+ "Method Not Allowed" ∧
  run (part_001.createSnippet r) σ ≠ run (handlers.createSnippet r) σ ∧
  run (part_001.createSnippet r) σ ≠ run (part_000.createSnippet r) σ.
Proof.
  intros Hm Hw.
  assert (wrote (Header_Set "Allow" "POST" (w σ)) = None) as Hw' by exact Hw.
  assert (body (w (run (part_001.createSnippet r) σ)) =
          body (w σ) +:+ "Method Not Allowed" +:+ LF +:+ "Create a new snippet...")
    as H1.
  { unfold part_001.createSnippet. rewrite bool_decide_true by done. run_M.
    rewrite (Error_fresh _ _ _ Hw').
    erewrite Write_wrote by reflexivity. http_simpl.
    change (bodyAllowedForStatus StatusMethodNotAllowed) with true. cbv iota.
    rewrite append_assoc. reflexivity. }
  assert (body (w (run (handlers.createSnippet r) σ)) =
          body (w σ) +:+ "Method Not Allowed" +:+ LF) as H2.
  { unfold handlers.createSnippet. rewrite bool_decide_true by done. run_M.
    rewrite (Error_body _ _ _ Hw'); reflexivity. }
  assert (body (w (run (part_000.createSnippet r) σ)) =
          body (w σ) +:+ "Method Not Allowed") as H3.
  { unfold part_000.createSnippet. rewrite bool_decide_true by done. run_M.
    rewrite (WriteHeader_fresh _ _ Hw').
    erewrite Write_wrote by reflexivity. reflexivity. }
  split_and!.
  - unfold part_001.createSnippet, handlers.createSnippet.
    rewrite !bool_decide_true by done. run_M. reflexivity.
  - unfold part_001.createSnippet. rewrite bool_decide_true by done. run_M.
    rewrite (Error_fresh _ _ _ Hw').
    erewrite Write_wrote by reflexivity. reflexivity.
  - exact H1.
  - exact H2.
  - exact H3.
  - intros H. apply (f_equal (λ x, body (w x))) in H. cbv beta in H.
    rewrite H1, H2 in H. apply (inj (String.app _)) in H. discriminate H.
  - intros H. apply (f_equal (λ x, body (w x))) in H. cbv beta in H.
    rewrite H1, H3 in H. apply (inj (String.app _)) in H. discriminate H.
Qed.

End HandlerFacts.

(* ===================================================================== *)
(** * Worked instances *)
(* ===================================================================== *)

Section Instances.
Import sql mysql http app.

Lemma empty_store_well_formed : well_formed (mkDB ∅ 1 1000 [] None []).
Proof. split; [done|]. apply map_Forall_empty. Qed.

(** A row that expired at second 500 is not found at second 1000, although
    it is stored under the id asked for. *)
Lemma Get_expired_row_witness :
  fst (Get 1 (mkDB (<[1 := mkRow "An old silent pond" "A frog jumps in" 0 500]> ∅)
                2 1000 [] None []))
    = (None, Some ErrNoRecord).
Proof.
  apply (Get_live_or_ErrNoRecord 1
           (mkDB (<[1 := mkRow "An old silent pond" "A frog jumps in" 0 500]> ∅)
              2 1000 [] None [])).
  - left. reflexivity.
  - intros (row & Hrow & Hlt). unfold live in *.
    cbn [snippets utc_timestamp] in *.
    rewrite lookup_insert_eq in Hrow. injection Hrow as <-.
    cbn [expires] in Hlt. lia.
Defined.


(** A GET on the create route is answered 405 with [Allow: POST]. *)
Lemma createSnippet_method_not_allowed_witness :
  status (w (run (handlers.createSnippet
                    (mkRequest "GET" "/snippet/create" ∅ ∅ "title=Pond"))
               (mkWorld newResponseWriter (mkDB ∅ 1 1000 [] None []) [])))
    = Some 405 ∧
  sent (w (run (handlers.createSnippet
                  (mkRequest "GET" "/snippet/create" ∅ ∅ "title=Pond"))
             (mkWorld newResponseWriter (mkDB ∅ 1 1000 [] None []) [])))
       "Allow"
    = Some ["POST"].
Proof.
  pose proof (createSnippet_method_not_allowed
                (mkRequest "GET" "/snippet/create" ∅ ∅ "title=Pond")
                (mkWorld newResponseWriter (mkDB ∅ 1 1000 [] None []) [])
                ltac:(discriminate) eq_refl) as (H1 & H2 & _).
  split; [exact H1 | exact H2].
Defined.

(** The first POST on an empty store is redirected to [/snippet?id=1]. *)
Lemma createSnippet_redirects_witness :
  status (w (run (handlers.createSnippet
                    (mkRequest "POST" "/snippet/create" ∅ ∅ "title=Pond"))
               (mkWorld newResponseWriter (mkDB ∅ 1 1000 [] None []) [])))
    = Some 303 ∧
  sent (w (run (handlers.createSnippet
                  (mkRequest "POST" "/snippet/create" ∅ ∅ "title=Pond"))
             (mkWorld newResponseWriter (mkDB ∅ 1 1000 [] None []) [])))
       "Location"
    = Some ["/snippet?id=1"].
Proof.
  pose proof (createSnippet_redirects
                (mkRequest "POST" "/snippet/create" ∅ ∅ "title=Pond")
                (mkWorld newResponseWriter (mkDB ∅ 1 1000 [] None []) [])
                eq_refl eq_refl empty_store_well_formed 1 None _ eq_refl)
    as (_ & H1 & H2 & _).
  split; [exact H1 | exact H2].
Defined.

(** A POST that carries form data of its own still inserts the haiku. *)
Lemma createSnippet_inserts_fixed_values_witness :
  statements
    (db (run (handlers.createSnippet
                (mkRequest "POST" "/snippet/create" (<["title" := ["Pond"]]> ∅) ∅
                   "title=Pond&content=frog&expires=365"))
           (mkWorld newResponseWriter (mkDB ∅ 1 1000 [] None []) [])))
    = [(Insert_stmt, [VString "O snail"; VString contract.haiku; VString "7"])].
Proof.
  pose proof (createSnippet_inserts_fixed_values
                (mkRequest "POST" "/snippet/create" (<["title" := ["Pond"]]> ∅) ∅
                   "title=Pond&content=frog&expires=365")
                (mkWorld newResponseWriter (mkDB ∅ 1 1000 [] None []) [])
                eq_refl) as [H _].
  exact H.
Defined.

(** A GET on the create route of the later revision gets both texts. *)
Lemma part_001_falls_through_witness :
  body (w (run (part_001.createSnippet
                  (mkRequest "GET" "/snippet/create" ∅ ∅ EmptyString))
             (mkWorld newResponseWriter (mkDB ∅ 1 1000 [] None []) [])))
    = "Method Not Allowed" +:+ LF +:+ "Create a new snippet...".
Proof.
  pose proof (part_001_falls_through
                (mkRequest "GET" "/snippet/create" ∅ ∅ EmptyString)
                (mkWorld newResponseWriter (mkDB ∅ 1 1000 [] None []) [])
                ltac:(discriminate) eq_refl) as (_ & _ & H & _).
  exact H.
Defined.

(** The scenario of the specification: a POST on an empty store is
    redirected to [/snippet?id=1], and a GET of that address a minute later
    is answered 200 with the stored haiku. *)
Example create_then_show :
  ∃ σ1 σ2,
    σ1 = run (handlers.createSnippet
                (mkRequest "POST" "/snippet/create" ∅ ∅ EmptyString))
             (mkWorld newResponseWriter (mkDB ∅ 1 1000 [] None []) []) ∧
    σ2 = run (handlers.showSnippet (λ t, strconv.Itoa t)
                (mkRequest "GET" "/snippet" (<["id" := ["1"]]> ∅) ∅ EmptyString))
             (mkWorld newResponseWriter (elapse 60 (db σ1)) []) ∧
    status (w σ1) = Some 303 ∧
    sent (w σ1) "Location" = Some ["/snippet?id=1"] ∧
    status (w σ2) = Some 200 ∧
    body (w σ2) = "&{1 O snail " +:+ contract.haiku +:+ " 1000 605800}".
Proof. eexists _, _. split_and!; [reflexivity..| | | |]; vm_compute; reflexivity. Qed.

End Instances.

(* ===================================================================== *)
(** * Further properties of the DAO *)
(* ===================================================================== *)

Section MoreDAO.
Import sql mysql.

(** [Insert] as a function of the failure script, the expiry text, the
    driver's ability to report keys and the key counter. *)
Lemma Insert_general (t c x : string) (db : DB) :
  Insert t c x db =
  match next_fault db with
  | Some e =>
      ((0, Some (Storage e)),
       received Insert_stmt [VString t; VString c; VString x] db)
  | None =>
      match decimal x with
      | None =>
          ((0, Some (Storage (MySQLError 1292 "Truncated incorrect INTEGER value"))),
           received Insert_stmt [VString t; VString c; VString x] db)
      | Some days =>
          (match last_insert_id_error db with
           | Some e => (0, Some (Storage e))
           | None => (GoInt.int_of_int64 (auto_increment db), None)
           end,
           snd (insert_row t c days
                  (received Insert_stmt [VString t; VString c; VString x] db)))
      end
  end.
Proof.
  unfold Insert, Exec. cbv zeta. rewrite execute_insert.
  destruct (next_fault db); [done|].
  destruct (decimal x); [|done].
  unfold insert_row, LastInsertId, received, submit.
  cbn [fst snd insert_id insert_id_err reply_insert_id last_insert_id_error
       auto_increment].
  by destruct (last_insert_id_error db).
Qed.

Lemma Get_store (id : Z) (db : DB) :
  snippets (snd (Get id db)) = snippets db ∧
  auto_increment (snd (Get id db)) = auto_increment db ∧
  utc_timestamp (snd (Get id db)) = utc_timestamp db.
Proof. by rewrite Get_result. Qed.

Lemma next_fault_nil (db : DB) : faults db = [] → next_fault db = None.
Proof. unfold next_fault. by intros ->. Qed.



(** X3: [Insert] never overwrites or removes a stored row of a well-formed
    store, whatever its arguments and whether or not it fails; any row of
    the table afterwards is an old row or the new one under the old value
    of the key counter; and the clock is not moved. *)
Theorem Insert_keeps_stored_rows (t c x : string) (db : DB) :
  well_formed db →
  (∀ id r, snippets db !! id = Some r →
           snippets (snd (Insert t c x db)) !! id = Some r) ∧
  (∀ id r, snippets (snd (Insert t c x db)) !! id = Some r →
           snippets db !! id = Some r ∨
           (id = auto_increment db ∧ title r = t ∧ content r = c ∧
            created r = utc_timestamp db)) ∧
  utc_timestamp (snd (Insert t c x db)) = utc_timestamp db.
Proof.
  intros [_ Hkeys]. rewrite Insert_general.
  destruct (next_fault db) as [e|]; [by auto|].
  destruct (decimal x) as [days|]; [|by auto].
  unfold insert_row, received, submit.
  cbn [snd snippets auto_increment utc_timestamp].
  split_and!; [| |done].
  - intros id r Hr. rewrite lookup_insert_ne; [done|].
    intros <-. apply Hkeys in Hr. cbn beta in Hr. lia.
  - intros id r Hr. apply lookup_insert_Some in Hr as [[<- <-]|[_ Hr]]; auto.
Qed.



End MoreDAO.

(* ===================================================================== *)
(** * Decimal text of an id: printing and parsing *)
(* ===================================================================== *)

Section Decimal.

Lemma digits_string_of_uint (d : Decimal.uint) (acc : Z) :
  strconv.digits acc (NilEmpty.string_of_uint d) = Some (strconv.uint_value acc d).
Proof.
  revert acc.
  induction d; intros acc;
    cbn [NilEmpty.string_of_uint strconv.digits strconv.uint_value];
    [done|..]; apply IHd.
Qed.

Lemma uint_value_acc (d : Decimal.uint) (acc : positive) :
  strconv.uint_value (Z.pos acc) d = Z.pos (Pos.of_uint_acc d acc).
Proof.
  revert acc.
  induction d; intros acc; cbn [strconv.uint_value Pos.of_uint_acc]; [done|..];
    rewrite <- IHd; f_equal; lia.
Qed.

Lemma uint_value_of_uint (d : Decimal.uint) :
  strconv.uint_value 0 d = Z.of_N (Pos.of_uint d).
Proof.
  induction d; cbn [strconv.uint_value Pos.of_uint]; [done|exact IHd|..];
    rewrite Z.mul_0_l, Z.add_0_l; by rewrite uint_value_acc.
Qed.

Lemma string_of_uint_head (d : Decimal.uint) :
  d ≠ Decimal.Nil →
  ∃ ch rest, NilEmpty.string_of_uint d = String ch rest ∧ strconv.is_digit ch = true.
Proof. destruct d; [done|..]; intros _; eexists _, _; split; reflexivity. Qed.

Lemma digit_not_sign (ch : ascii) :
  strconv.is_digit ch = true → strconv.is_sign ch = false ∧ ch ≠ "-"%char.
Proof.
  intros Hd. unfold strconv.is_sign.
  repeat case_bool_decide; subst; try done.
Qed.

Lemma Atoi_digits (s : string) (ch : ascii) (rest : string) (n : Z) :
  s = String ch rest → strconv.is_digit ch = true →
  strconv.digits 0 s = Some n →
  GoInt.minInt ≤ n ≤ GoInt.maxInt →
  strconv.Atoi s = (n, None).
Proof.
  intros -> Hd Hn Hr. destruct (digit_not_sign _ Hd) as [Hs Hm].
  unfold strconv.Atoi. rewrite Hs, Hn.
  rewrite (bool_decide_false (ch = "-"%char)) by done.
  rewrite !bool_decide_false by lia. done.
Qed.

Lemma Itoa_text_value (n : Z) (d : Decimal.uint) :
  d ≠ Decimal.Nil → Z.of_uint d = n → 0 ≤ n ≤ GoInt.maxInt →
  strconv.Atoi (NilEmpty.string_of_uint d) = (n, None).
Proof.
  intros Hd Hn Hr. destruct (string_of_uint_head d Hd) as (ch & rest & Hs & Hc).
  eapply Atoi_digits; [exact Hs|exact Hc| |].
  - rewrite digits_string_of_uint, uint_value_of_uint. by rewrite <- Hn.
  - unfold GoInt.minInt, GoInt.maxInt, GoInt.intSize in *. lia.
Qed.

Lemma Pos_to_uint_value (p : positive) : Z.of_uint (Pos.to_uint p) = Z.pos p.
Proof. unfold Z.of_uint. by rewrite DecimalPos.Unsigned.of_to. Qed.

Lemma NilZero_nonnil (d : Decimal.uint) :
  d ≠ Decimal.Nil → NilZero.string_of_uint d = NilEmpty.string_of_uint d.
Proof. by destruct d. Qed.

Lemma Atoi_of_Itoa (n : Z) :
  GoInt.minInt ≤ n ≤ GoInt.maxInt → strconv.Atoi (strconv.Itoa n) = (n, None).
Proof.
  intros Hr. unfold strconv.Itoa.
  destruct n as [|p|p]; cbn [Z.to_int NilZero.string_of_int].
  - reflexivity.
  - pose proof (DecimalPos.Unsigned.to_uint_nonnil p) as Hnn.
    rewrite (NilZero_nonnil _ Hnn).
    apply Itoa_text_value; [done|apply Pos_to_uint_value|].
    unfold GoInt.minInt in *. lia.
  - pose proof (DecimalPos.Unsigned.to_uint_nonnil p) as Hnn.
    rewrite (NilZero_nonnil _ Hnn).
    destruct (string_of_uint_head _ Hnn) as (ch & rest & Hs & Hc).
    unfold strconv.Atoi.
    change (strconv.is_sign "-") with true. cbv iota.
    rewrite digits_string_of_uint, uint_value_of_uint.
    fold (Z.of_uint (Pos.to_uint p)). rewrite Pos_to_uint_value.
    rewrite Hs. rewrite (bool_decide_true ("-"%char = "-"%char)) by done.
    rewrite !bool_decide_false by lia. done.
Qed.

(** X6: the decimal text that [%d] prints for an [int] is numeric text that
    [Atoi] reads back as the same integer, so the id in the Location of
    [createSnippet] is one [showSnippet] accepts; and two different ids
    never print alike. *)
Theorem Itoa_parses_back (n : Z) :
  GoInt.minInt ≤ n ≤ GoInt.maxInt →
  strconv.Atoi (strconv.Itoa n) = (n, None) ∧
  contract.numeric (strconv.Itoa n) = true ∧
  (∀ m, GoInt.minInt ≤ m ≤ GoInt.maxInt → strconv.Itoa m = strconv.Itoa n → m = n).
Proof.
  intros Hr. pose proof (Atoi_of_Itoa n Hr) as HA. split_and!.
  - exact HA.
  - destruct (contract.numeric (strconv.Itoa n)) eqn:Hnum; [done|].
    apply Atoi_syntax in Hnum. by rewrite HA in Hnum.
  - intros m Hm Heq. pose proof (Atoi_of_Itoa m Hm) as HB.
    rewrite Heq, HA in HB. congruence.
Qed.

End Decimal.

(* ===================================================================== *)
(** * Further properties of the handlers *)
(* ===================================================================== *)

Section MoreHandlers.
Import sql mysql http app.

Variable time_String : Z → string.
Variable T : template.Engine.

Lemma showSnippet_db (r : Request) (σ : World) :
  (∃ id, strconv.Atoi (Values_Get (URL_Query r) "id") = (id, None) ∧ 1 ≤ id ∧
         db (run (handlers.showSnippet time_String r) σ) = snd (Get id (db σ))) ∨
  (¬ (∃ id, strconv.Atoi (Values_Get (URL_Query r) "id") = (id, None) ∧ 1 ≤ id) ∧
   db (run (handlers.showSnippet time_String r) σ) = db σ).
Proof.
  destruct (strconv.Atoi (Values_Get (URL_Query r) "id")) as [id err] eqn:HA.
  destruct (decide (err = None ∧ 1 ≤ id)) as [[-> Hid]|Hbad].
  - left. exists id. split_and!; [done..|].
    unfold run. rewrite (showSnippet_valid _ _ _ _ HA Hid).
    destruct (Get id (db σ)) as [[s [[|e]|]] d]; by run_M.
  - assert (err ≠ None ∨ id < 1) as Hor.
    { destruct err; [by left|]. right. destruct (decide (1 ≤ id)); [|lia].
      destruct Hbad; done. }
    right. split.
    + intros (id' & [= ? ?] & Hid'). subst. destruct Hor; [done|lia].
    + unfold run. rewrite (showSnippet_invalid _ _ _ _ _ HA Hor). by run_M.
Qed.

(** X7: [showSnippet] reaches the storage exactly when the id text parses
    to an integer of at least 1 (so also not for text that overflows
    [int]); then it submits the one SELECT with that id, otherwise the
    storage is untouched; and in no case does it change the table, the key
    counter or the clock. *)
Theorem showSnippet_consults_storage_iff_valid (r : Request) (σ : World) :
  ((∃ id, strconv.Atoi (Values_Get (URL_Query r) "id") = (id, None) ∧ 1 ≤ id ∧
          statements (db (run (handlers.showSnippet time_String r) σ)) =
            (Get_stmt, [VInt id]) :: statements (db σ)) ∨
   (¬ (∃ id, strconv.Atoi (Values_Get (URL_Query r) "id") = (id, None) ∧ 1 ≤ id) ∧
    db (run (handlers.showSnippet time_String r) σ) = db σ)) ∧
  snippets (db (run (handlers.showSnippet time_String r) σ)) = snippets (db σ) ∧
  auto_increment (db (run (handlers.showSnippet time_String r) σ))
    = auto_increment (db σ) ∧
  utc_timestamp (db (run (handlers.showSnippet time_String r) σ))
    = utc_timestamp (db σ).
Proof.
  destruct (showSnippet_db r σ) as [(id & HA & Hid & ->)|[Hno ->]].
  - split_and!; try apply Get_store.
    left. exists id. split_and!; [done..|]. apply Get_statements.
  - split_and!; try done. by right.
Qed.

(** X8: the outcome of [showSnippet] depends on the request only through
    what [Atoi] makes of the first [id] value: the method, path, headers,
    body and other parameters are never looked at, and [7], [+7] and [007]
    are the same request to it. *)
Theorem showSnippet_depends_only_on_id (r r' : Request) (σ : World) :
  strconv.Atoi (Values_Get (URL_Query r) "id") =
  strconv.Atoi (Values_Get (URL_Query r') "id") →
  run (handlers.showSnippet time_String r) σ =
  run (handlers.showSnippet time_String r') σ.
Proof. intros H. unfold run, handlers.showSnippet. by rewrite H. Qed.

(** X9: a valid id under which nothing live is stored (no row, or a row
    whose expires timestamp is not after the clock) gets exactly the
    response, and the same error log, as a request whose id is invalid:
    the client cannot tell an expired snippet from a bad id. *)
Theorem showSnippet_not_found_indistinguishable
    (r r' : Request) (σ : World) (id : Z) :
  strconv.Atoi (Values_Get (URL_Query r) "id") = (id, None) → 1 ≤ id →
  next_fault (db σ) = None →
  (∀ row, snippets (db σ) !! id = Some row → expires row ≤ utc_timestamp (db σ)) →
  snd (strconv.Atoi (Values_Get (URL_Query r') "id")) ≠ None ∨
  fst (strconv.Atoi (Values_Get (URL_Query r') "id")) < 1 →
  w (run (handlers.showSnippet time_String r) σ) =
  w (run (handlers.showSnippet time_String r') σ) ∧
  errorLog (run (handlers.showSnippet time_String r) σ) =
  errorLog (run (handlers.showSnippet time_String r') σ).
Proof.
  intros HA Hid Hnf Hexp Hbad.
  destruct (strconv.Atoi (Values_Get (URL_Query r') "id")) as [id' err'] eqn:HA'.
  cbn [fst snd] in Hbad.
  unfold run.
  rewrite (showSnippet_invalid _ _ _ _ _ HA' Hbad).
  rewrite (showSnippet_valid _ _ _ _ HA Hid).
  rewrite Get_result, Hnf.
  assert ((match snippets (db σ) !! id with
           | Some r0 =>
               if bool_decide (utc_timestamp (db σ) < expires r0)
               then (Some (snippet_of id r0), None)
               else (None, Some ErrNoRecord)
           | None => (None, Some ErrNoRecord)
           end) = (None, Some ErrNoRecord)) as ->.
  { destruct (snippets (db σ) !! id) as [row|] eqn:Hrow; [|done].
    rewrite bool_decide_false; [done|]. specialize (Hexp row eq_refl). lia. }
  by run_M.
Qed.

(** X10: create, then show.  After a POST on a well-formed store without
    failures the Location header names an id [N]; a later request for that
    id, on a fresh response writer and before seven days have passed, is
    answered 200 with the [%v] text of the snippet [N] holding "O snail"
    and the haiku, created at the time of the POST and expiring seven days
    later. *)
Theorem create_then_show_round_trip (r r' : Request) (σ : World)
    (ω : ResponseWriter) (d : Z) :
  Method r = "POST" → wrote (w σ) = None →
  well_formed (db σ) → faults (db σ) = [] → last_insert_id_error (db σ) = None →
  wrote ω = None → 0 ≤ d < 7 * day →
  ∃ N,
    sent (w (run (handlers.createSnippet r) σ)) "Location"
      = Some ["/snippet?id=" +:+ strconv.Itoa N] ∧
    (Values_Get (URL_Query r') "id" = strconv.Itoa N →
     status (w (run (handlers.showSnippet time_String r')
                  (mkWorld ω (elapse d (db (run (handlers.createSnippet r) σ)))
                     (errorLog (run (handlers.createSnippet r) σ)))))
       = Some 200 ∧
     body (w (run (handlers.showSnippet time_String r')
                (mkWorld ω (elapse d (db (run (handlers.createSnippet r) σ)))
                   (errorLog (run (handlers.createSnippet r) σ)))))
       = body ω +:+
         handlers.fmt_v time_String
           (Some (mkSnippet N "O snail" contract.haiku (utc_timestamp (db σ))
                    (utc_timestamp (db σ) + 7 * day)))).
Proof.
  intros Hm Hw Hwf Hf Hl Hω Hd.
  pose proof (Insert_result_ok "O snail" contract.haiku (db σ) Hwf
                (next_fault_nil _ Hf) Hl) as HI.
  exists (auto_increment (db σ)).
  assert (run (handlers.createSnippet r) σ =
          mkWorld (Redirect r ("/snippet?id=" +:+ strconv.Itoa (auto_increment (db σ)))
                     StatusSeeOther (w σ))
            (snd (insert_row "O snail" contract.haiku 7
                    (received Insert_stmt
                       [VString "O snail"; VString contract.haiku; VString "7"] (db σ))))
            (errorLog σ)) as Hrun.
  { unfold run. rewrite createSnippet_POST, HI by done. by run_M. }
  rewrite Hrun. cbn [w db errorLog].
  split.
  - rewrite Redirect_POST by done. unfold sent. http_simpl.
    cbn [mbind option_bind]. by rewrite lookup_insert_eq.
  - intros Hid.
    destruct Hwf as [Hai _].
    assert (strconv.Atoi (Values_Get (URL_Query r') "id")
            = (auto_increment (db σ), None)) as HA.
    { rewrite Hid. apply Atoi_of_Itoa.
      unfold GoInt.minInt, GoInt.maxInt, GoInt.maxInt64, GoInt.intSize in *. lia. }
    unfold run. rewrite (showSnippet_valid _ _ _ _ HA) by lia.
    cbn [db w errorLog].
    rewrite Get_result.
    unfold next_fault, elapse, insert_row, received, submit.
    cbn [snd faults snippets utc_timestamp auto_increment].
    rewrite Hf. cbn [tail head].
    change (mjoin (@None (option storage_error))) with (@None storage_error).
    cbv iota. rewrite lookup_insert_eq. cbv iota. cbn [expires].
    rewrite bool_decide_true by (unfold day in *; lia).
    run_M. rewrite Write_fresh by done. http_simpl. done.
Qed.

(** X11: the two earlier revisions of [showSnippet] never reach the
    storage.  For an id that parses to at least 1 they are the same and
    answer 200 with "Display a specific snippet with ID N...", whether or
    not such a snippet exists; for any other id text both answer 404, with
    the body "404 page not found" in the first and "Not Found" in the
    second. *)
Theorem early_showSnippet_never_reads (r : Request) (σ : World) :
  wrote (w σ) = None →
  db (run (part_000.showSnippet r) σ) = db σ ∧
  db (run (part_001.showSnippet r) σ) = db σ ∧
  (∀ id, strconv.Atoi (Values_Get (URL_Query r) "id") = (id, None) → 1 ≤ id →
     run (part_000.showSnippet r) σ = run (part_001.showSnippet r) σ ∧
     status (w (run (part_000.showSnippet r) σ)) = Some 200 ∧
     body (w (run (part_000.showSnippet r) σ)) =
       body (w σ) +:+ "Display a specific snippet with ID " +:+
       strconv.Itoa id +:+ "...") ∧
  (snd (strconv.Atoi (Values_Get (URL_Query r) "id")) ≠ None ∨
   fst (strconv.Atoi (Values_Get (URL_Query r) "id")) < 1 →
     status (w (run (part_000.showSnippet r) σ)) = Some 404 ∧
     status (w (run (part_001.showSnippet r) σ)) = Some 404 ∧
     body (w (run (part_000.showSnippet r) σ)) =
       body (w σ) +:+ "404 page not found" +:+ LF ∧
     body (w (run (part_001.showSnippet r) σ)) =
       body (w σ) +:+ "Not Found" +:+ LF).
Proof.
  intros Hw. unfold part_000.showSnippet, part_001.showSnippet.
  destruct (strconv.Atoi (Values_Get (URL_Query r) "id")) as [id err].
  split_and!.
  - destruct (_ || _); by run_M.
  - destruct (_ || _); by run_M.
  - intros id' [= -> ->] Hid.
    rewrite bool_decide_false by (intros H; by apply H).
    rewrite bool_decide_false by lia. cbn [orb]. run_M.
    rewrite Write_fresh by done. done.
  - cbn [fst snd]. intros Hbad.
    assert (bool_decide (err ≠ None) || bool_decide (id < 1) = true) as ->.
    { destruct Hbad; [by rewrite bool_decide_true|].
      rewrite (bool_decide_true (id < 1)) by done. by rewrite orb_true_r. }
    run_M. unfold NotFound.
    rewrite !Error_status, !Error_body by done. done.
Qed.

(** X12: the two earlier revisions of [createSnippet] never reach the
    storage and log nothing, for any request; on a POST they are the same,
    and on a fresh response writer answer 200 with the body "Create a new
    snippet..." and no Location header of their own. *)
Theorem early_createSnippet_never_stores (r : Request) (σ : World) :
  db (run (part_000.createSnippet r) σ) = db σ ∧
  db (run (part_001.createSnippet r) σ) = db σ ∧
  errorLog (run (part_000.createSnippet r) σ) = errorLog σ ∧
  errorLog (run (part_001.createSnippet r) σ) = errorLog σ ∧
  (Method r = "POST" →
   run (part_000.createSnippet r) σ = run (part_001.createSnippet r) σ ∧
   (wrote (w σ) = None →
    status (w (run (part_000.createSnippet r) σ)) = Some 200 ∧
    body (w (run (part_000.createSnippet r) σ)) =
      body (w σ) +:+ "Create a new snippet..." ∧
    sent (w (run (part_000.createSnippet r) σ)) "Location"
      = header (w σ) !! "Location")).
Proof.
  unfold part_000.createSnippet, part_001.createSnippet.
  split_and!; try (case_bool_decide; by run_M).
  intros Hm. rewrite !bool_decide_false by (intros H; by apply H). run_M.
  split; [done|]. intros Hw. by rewrite Write_fresh.
Qed.





(** X13: no revision of [home] reaches the storage, whatever the request
    and whatever the template files hold; a path other than "/" is
    answered 404 on a fresh response writer with nothing logged; and the
    handler is the same in the later revision and in the final file. *)
Theorem home_leaves_storage (r : Request) (σ : World) :
  db (run (handlers.home T r) σ) = db σ ∧
  db (run (part_001.home T r) σ) = db σ ∧
  db (run (part_000.home T r) σ) = db σ ∧
  (URL_Path r ≠ "/" → wrote (w σ) = None →
   status (w (run (handlers.home T r) σ)) = Some 404 ∧
   status (w (run (part_000.home T r) σ)) = Some 404 ∧
   errorLog (run (handlers.home T r) σ) = errorLog σ ∧
   errorLog (run (part_000.home T r) σ) = errorLog σ) ∧
  run (part_001.home T r) σ = run (handlers.home T r) σ.
Proof.
  unfold handlers.home, part_001.home, part_000.home. cbv zeta.
  split_and!.
  - case_bool_decide; [by run_M|].
    destruct (template.ParseFiles T home_files) as [ts|e]; [|by run_M].
    destruct (template.Execute T ts) as [chunks [e|]]; by run_M.
  - case_bool_decide; [by run_M|].
    destruct (template.ParseFiles T home_files) as [ts|e]; [|by run_M].
    destruct (template.Execute T ts) as [chunks [e|]]; by run_M.
  - case_bool_decide; [by run_M|].
    destruct (template.ParseFiles T home_files) as [ts|e]; [|by run_M].
    destruct (template.Execute T ts) as [chunks [e|]]; by run_M.
  - intros Hp Hw. rewrite !bool_decide_true by done. run_M. unfold NotFound.
    rewrite !Error_status by done. done.
  - done.
Qed.


(** X15: both handlers of the final file keep the store well-formed as
    long as the key counter has room; [createSnippet] moves the counter by
    at most one and [showSnippet] not at all. *)
Theorem handlers_keep_store_well_formed (r : Request) (σ : World) :
  well_formed (db σ) → auto_increment (db σ) < GoInt.maxInt64 →
  well_formed (db (run (handlers.createSnippet r) σ)) ∧
  well_formed (db (run (handlers.showSnippet time_String r) σ)) ∧
  auto_increment (db (run (handlers.showSnippet time_String r) σ))
    = auto_increment (db σ) ∧
  auto_increment (db σ) ≤ auto_increment (db (run (handlers.createSnippet r) σ))
    ≤ auto_increment (db σ) + 1.
Proof.
  intros Hwf Hroom. split; [|split; [|split]].
  - unfold handlers.createSnippet. case_bool_decide; [by run_M|].
    cbv zeta. unfold run, mbind, M_bind, storage.
    pose proof (Insert_well_formed "O snail"
      ("O snail" +:+ LF +:+ "Climb Mount Fuji," +:+ LF +:+ "But slowly, slowly!" +:+
       LF +:+ LF +:+ handlers.EN_DASH +:+ " Kobayashi Issa") "7" (db σ) Hwf Hroom)
      as H'.
    destruct (Insert _ _ _ (db σ)) as [[id [e|]] d]; by run_M.
  - destruct (showSnippet_db r σ) as [(id & _ & _ & ->)|[_ ->]]; [|done].
    by apply Get_well_formed.
  - destruct (showSnippet_db r σ) as [(id & _ & _ & ->)|[_ ->]]; [|done].
    apply Get_store.
  - unfold handlers.createSnippet. case_bool_decide; [run_M; lia|].
    cbv zeta. unfold run, mbind, M_bind, storage.
    rewrite Insert_general.
    destruct (next_fault (db σ)); [run_M; cbn; lia|].
    change (decimal "7") with (Some 7). cbv iota.
    destruct (last_insert_id_error (db σ)); run_M;
      cbn [snd auto_increment insert_row received submit]; lia.
Qed.

End MoreHandlers.

(* ===================================================================== *)
(** * Further worked instances *)
(* ===================================================================== *)

Section MoreInstances.
Import sql mysql http app.

Lemma one_row_store_well_formed :
  well_formed (mkDB (<[1 := mkRow "An old silent pond" "A frog jumps in" 0 500]> ∅)
                 2 1000 [] None []).
Proof.
  split; [done|]. cbn [snippets auto_increment].
  apply map_Forall_insert_2; [lia|]. apply map_Forall_empty.
Qed.


(** The row stored under 1 is still there after another insert. *)
Lemma Insert_keeps_stored_rows_witness :
  snippets (snd (Insert "O snail" "Climb Mount Fuji" "7"
                   (mkDB (<[1 := mkRow "An old silent pond" "A frog jumps in" 0 500]> ∅)
                      2 1000 [] None []))) !! 1
    = Some (mkRow "An old silent pond" "A frog jumps in" 0 500).
Proof.
  apply (Insert_keeps_stored_rows "O snail" "Climb Mount Fuji" "7"
           (mkDB (<[1 := mkRow "An old silent pond" "A frog jumps in" 0 500]> ∅)
              2 1000 [] None []) one_row_store_well_formed).
  cbn [snippets]. apply lookup_insert_eq.
Defined.


(** The id 42 prints as text that parses back to 42. *)
Lemma Itoa_parses_back_witness :
  strconv.Atoi (strconv.Itoa 42) = (42, None).
Proof.
  apply (Itoa_parses_back 42).
  unfold GoInt.minInt, GoInt.maxInt, GoInt.intSize. lia.
Defined.

(** A GET for [id=7] and a POST for [id=+007] with a body fare alike. *)
Lemma showSnippet_depends_only_on_id_witness :
  run (handlers.showSnippet strconv.Itoa
         (mkRequest "GET" "/snippet" (<["id" := ["7"]]> ∅) ∅ EmptyString))
      (mkWorld newResponseWriter (mkDB ∅ 1 1000 [] None []) [])
  = run (handlers.showSnippet strconv.Itoa
           (mkRequest "POST" "/elsewhere" (<["id" := ["+007"; "8"]]> ∅) ∅ "id=9"))
        (mkWorld newResponseWriter (mkDB ∅ 1 1000 [] None []) []).
Proof.
  apply (showSnippet_depends_only_on_id strconv.Itoa). reflexivity.
Defined.

(** The expired row under id 1 and the id [abc] get the same response. *)
Lemma showSnippet_not_found_indistinguishable_witness :
  w (run (handlers.showSnippet strconv.Itoa
            (mkRequest "GET" "/snippet" (<["id" := ["1"]]> ∅) ∅ EmptyString))
         (mkWorld newResponseWriter
            (mkDB (<[1 := mkRow "An old silent pond" "A frog jumps in" 0 500]> ∅)
               2 1000 [] None []) []))
  = w (run (handlers.showSnippet strconv.Itoa
              (mkRequest "GET" "/snippet" (<["id" := ["abc"]]> ∅) ∅ EmptyString))
           (mkWorld newResponseWriter
              (mkDB (<[1 := mkRow "An old silent pond" "A frog jumps in" 0 500]> ∅)
                 2 1000 [] None []) [])).
Proof.
  apply (showSnippet_not_found_indistinguishable strconv.Itoa
           (mkRequest "GET" "/snippet" (<["id" := ["1"]]> ∅) ∅ EmptyString)
           (mkRequest "GET" "/snippet" (<["id" := ["abc"]]> ∅) ∅ EmptyString)
           (mkWorld newResponseWriter
              (mkDB (<[1 := mkRow "An old silent pond" "A frog jumps in" 0 500]> ∅)
                 2 1000 [] None []) []) 1).
  - reflexivity.
  - lia.
  - reflexivity.
  - intros row Hrow. cbn [db snippets utc_timestamp] in *.
    rewrite lookup_insert_eq in Hrow. injection Hrow as <-. cbn [expires]. lia.
  - left. discriminate.
Defined.

(** The first POST on an empty store names id 1 in its Location. *)
Lemma create_then_show_round_trip_witness :
  ∃ N,
    sent (w (run (handlers.createSnippet
                    (mkRequest "POST" "/snippet/create" ∅ ∅ EmptyString))
               (mkWorld newResponseWriter (mkDB ∅ 1 1000 [] None []) [])))
         "Location"
      = Some ["/snippet?id=" +:+ strconv.Itoa N].
Proof.
  destruct (create_then_show_round_trip strconv.Itoa
              (mkRequest "POST" "/snippet/create" ∅ ∅ EmptyString)
              (mkRequest "GET" "/snippet" (<["id" := ["1"]]> ∅) ∅ EmptyString)
              (mkWorld newResponseWriter (mkDB ∅ 1 1000 [] None []) [])
              newResponseWriter 60
              eq_refl eq_refl empty_store_well_formed eq_refl eq_refl eq_refl
              ltac:(unfold day; lia)) as (N & H & _).
  exists N. exact H.
Defined.

(** The first revision answers for id 5 without a look at the store. *)
Lemma early_showSnippet_never_reads_witness :
  db (run (part_000.showSnippet
             (mkRequest "GET" "/snippet" (<["id" := ["5"]]> ∅) ∅ EmptyString))
          (mkWorld newResponseWriter (mkDB ∅ 1 1000 [] None []) []))
  = mkDB ∅ 1 1000 [] None [].
Proof.
  apply (early_showSnippet_never_reads
           (mkRequest "GET" "/snippet" (<["id" := ["5"]]> ∅) ∅ EmptyString)
           (mkWorld newResponseWriter (mkDB ∅ 1 1000 [] None []) [])).
  reflexivity.
Defined.


(** A POST on an empty store leaves it well-formed. *)
Lemma handlers_keep_store_well_formed_witness :
  well_formed
    (db (run (handlers.createSnippet
                (mkRequest "POST" "/snippet/create" ∅ ∅ EmptyString))
             (mkWorld newResponseWriter (mkDB ∅ 1 1000 [] None []) []))).
Proof.
  apply (handlers_keep_store_well_formed strconv.Itoa
           (mkRequest "POST" "/snippet/create" ∅ ∅ EmptyString)
           (mkWorld newResponseWriter (mkDB ∅ 1 1000 [] None []) [])
           empty_store_well_formed).
  reflexivity.
Defined.

End MoreInstances.
